(** * Sequential streaming orchestration of the chat backend

    A shallow embedding of [backend/src/config/index.js] and of the socket
    service that drives one inbound [send_message] through the two language
    models, followed by the properties of that pipeline.

    The JavaScript is effectful: it writes to the session store, emits events
    on the socket, logs on the console and calls the model backend.  All four
    are fields of one [World]; the code is written in a state-and-exception
    monad over it, so that [try]/[catch] and [await] read as in the source. *)

From Stdlib Require Import String Ascii List ZArith QArith Lia.
From stdpp Require Import base option list strings gmap.

Local Open Scope string_scope.
Local Open Scope list_scope.
Local Open Scope Z_scope.

(** ** JavaScript strings and values *)

Module Js.

(** A JavaScript string is held by the bytes of its UTF-8 encoding, which is
    what a string literal of this file is.  The program compares, joins and
    tests prefixes of strings, which reads the same on the encoding; only
    [trim] looks at characters, so it decodes the white space it strips. *)

(** The code points [String.prototype.trim] strips: [WhiteSpace] (TAB, VT,
    FF, the category Zs: SP, NBSP, U+1680, U+2000 to U+200A, U+202F, U+205F,
    U+3000, and U+FEFF) and [LineTerminator] (LF, CR, U+2028, U+2029). *)
Definition whiteSpaceCodePoints : list N :=
  [9; 10; 11; 12; 13; 32; 160; 5760;
   8192; 8193; 8194; 8195; 8196; 8197; 8198; 8199; 8200; 8201; 8202;
   8232; 8233; 8239; 8287; 12288; 65279]%N.

(** The UTF-8 bytes of a code point below U+10000. *)
Definition utf8 (c : N) : string :=
  if (c <? 128)%N then String (ascii_of_N c) EmptyString
  else if (c <? 2048)%N then
    String (ascii_of_N (192 + c / 64))
      (String (ascii_of_N (128 + c mod 64)) EmptyString)
  else
    String (ascii_of_N (224 + c / 4096))
      (String (ascii_of_N (128 + (c / 64) mod 64))
         (String (ascii_of_N (128 + c mod 64)) EmptyString)).

(** The white space characters, as they appear in a string. *)
Definition whiteSpace : list string := List.map utf8 whiteSpaceCodePoints.

(** [s] without its prefix [p], when it starts with [p]. *)
Fixpoint dropPrefix (p s : string) : option string :=
  match p with
  | EmptyString => Some s
  | String a p' =>
      match s with
      | EmptyString => None
      | String b s' => if Ascii.eqb a b then dropPrefix p' s' else None
      end
  end.

(** [s] without its first character, when that is white space. *)
Definition dropWhiteSpace (s : string) : option string :=
  List.fold_right
    (fun w found =>
       match dropPrefix w s with
       | Some rest => Some rest
       | None => found
       end)
    None whiteSpace.

(** [trimStart] within [n] characters. *)
Fixpoint trimStartWithin (n : nat) (s : string) : string :=
  match n with
  | O => s
  | S n' =>
      match dropWhiteSpace s with
      | Some rest => trimStartWithin n' rest
      | None => s
      end
  end.

(** [s.trimStart()]: a string has no more characters than bytes. *)
Definition trimStart (s : string) : string :=
  trimStartWithin (String.length s) s.

(** [s.trimEnd()]: the longest suffix made of white space is dropped, that
    is, the longest one [trimStart] would erase.  A suffix that starts inside
    a character starts with a continuation byte, which begins no white
    space, so only whole characters are dropped. *)
Fixpoint trimEnd (s : string) : string :=
  match s with
  | EmptyString => EmptyString
  | String c r =>
      match trimStart s with
      | EmptyString => EmptyString
      | String _ _ => String c (trimEnd r)
      end
  end.

(** [s.trim()] *)
Definition trim (s : string) : string := trimEnd (trimStart s).

(** [s.startsWith(p)] *)
Definition startsWith (s p : string) : bool := String.prefix p s.

(** [s === ''] *)
Definition isEmpty (s : string) : bool :=
  match s with EmptyString => true | String _ _ => false end.

(** [a || b] on strings that may be [undefined]: the empty string and
    [undefined] are falsy. *)
Definition or_else (a : option string) (b : string) : string :=
  match a with
  | Some s => if isEmpty s then b else s
  | None => b
  end.

(** A number as [parseFloat] and [parseInt] return it. *)
Inductive Number := NaN | Num (q : Q).

End Js.

(** A thrown [Error]: the pipeline only ever reads its [message]. *)
Module Err.
Record t := { message : option string }.
End Err.

(** ** Data model *)

Inductive Role := user | assistant.

Module Msg.
(** An entry of a session transcript: [{ role, modelId?, content }]. *)
Record t := { role : Role; modelId : option string; content : string }.
End Msg.

(** The payload of an inbound [send_message]. *)
Module Data.
Record t := { message : string; sessionId : string }.
End Data.

(** What arrives with [send_message]: an object with the two fields, or no
    object at all ([null] or [undefined]); [raised] is then the [TypeError]
    the engine raises when the handler destructures it. *)
Inductive Payload :=
| Object (data : Data.t)
| Nullish (raised : Err.t).

(** Events emitted on the originating socket, named as on the wire. *)
Inductive Event :=
| error (code message : string)
| receive_message (modelId message : string) (isComplete : bool)
                  (sessionId : string) (order : Z)
| model_complete (modelId sessionId : string) (order : Z)
| all_responses_complete (sessionId : string).

Inductive LogLine :=
| console_warn_line (text : string)
| console_error_line (text : string) (err : Err.t).

(** ** Configuration ([config/index.js]) *)

Record Parameters := { temperature : Js.Number; maxTokens : Js.Number }.

Record ModelConfig := { modelId : string; parameters : Parameters }.

Record Models := { deepseek : ModelConfig; nova : ModelConfig }.

Record Config := { models : Models }.

(** [process.env.KEY || fallback] *)
Definition env_or (env : gmap string string) (key fallback : string) : string :=
  Js.or_else (env !! key) fallback.

(** The [models] block of the exported configuration.  [env] is
    [process.env] as lines 13 to 28 read it, after line 1 has run (see
    [dotenv_config] below).  [parseFloat] and [parseInt] are the host's; the
    [server] and [aws] blocks are not read by the pipeline. *)
Definition config (parseFloat parseInt : string -> Js.Number)
    (env : gmap string string) : Config :=
  {| models :=
       {| deepseek :=
            {| modelId := env_or env "DEEPSEEK_MODEL_ID" "us.deepseek.r1-v1:0";
               parameters :=
                 {| temperature := parseFloat (env_or env "DEEPSEEK_TEMPERATURE" "0.7");
                    maxTokens := parseInt (env_or env "DEEPSEEK_MAX_TOKENS" "1000") |} |};
          nova :=
            {| modelId := env_or env "NOVA_MODEL_ID" "us.amazon.nova-lite-v1:0";
               parameters :=
                 {| temperature := parseFloat (env_or env "NOVA_TEMPERATURE" "0.7");
                    maxTokens := parseInt (env_or env "NOVA_MAX_TOKENS" "1000") |} |} |} |}.

(** A model descriptor of the sequence: [{ id, config, order }]. *)
Module Model.
Record t := { id : string; config : ModelConfig; order : Z }.
End Model.

(** ** The world the handler acts on *)

(** One call of [generateStreamingResponse], with the transcript as it was
    when the call was made. *)
Record Invocation :=
  { inv_modelId : string; inv_history : list Msg.t; inv_parameters : Parameters }.

Record World :=
  { sessions : gmap string (list Msg.t);   (* the session store *)
    emitted : list Event;                  (* events sent on the socket, oldest first *)
    console : list LogLine;                (* console output, oldest first *)
    invocations : list Invocation;         (* generator calls, oldest first *)
    appended : list (string * Msg.t) }.    (* [Session.addMessage] calls, oldest first *)

(** ** Effects: state and exceptions *)

Inductive Completion (A : Type) :=
| Normal (a : A)
| Throw (e : Err.t).
Arguments Normal {A} a.
Arguments Throw {A} e.

Definition Eff (A : Type) : Type := World -> Completion A * World.

Definition ret {A} (a : A) : Eff A := fun w => (Normal a, w).

Definition throw {A} (e : Err.t) : Eff A := fun w => (Throw e, w).

Definition bind {A B} (c : Eff A) (k : A -> Eff B) : Eff B :=
  fun w =>
    match c w with
    | (Normal a, w') => k a w'
    | (Throw e, w') => (Throw e, w')
    end.

(** [try { body } catch (err) { handler }]: the effects of [body] up to the
    throw stay. *)
Definition try_catch {A} (body : Eff A) (handler : Err.t -> Eff A) : Eff A :=
  fun w =>
    match body w with
    | (Normal a, w') => (Normal a, w')
    | (Throw e, w') => handler e w'
    end.

Notation "x <- c1 ;; c2" := (bind c1 (fun x => c2))
  (at level 100, c1 at next level, right associativity).
Notation "c1 ;; c2" := (bind c1 (fun _ => c2))
  (at level 100, right associativity).

Fixpoint for_each {A} (l : list A) (f : A -> Eff unit) : Eff unit :=
  match l with
  | [] => ret tt
  | x :: r => f x ;; for_each r f
  end.

(** [socket.emit(event, payload)] *)
Definition socket_emit (e : Event) : Eff unit :=
  fun w =>
    (Normal tt,
     {| sessions := sessions w; emitted := emitted w ++ [e];
        console := console w; invocations := invocations w; appended := appended w |}).

Definition console_log (l : LogLine) : Eff unit :=
  fun w =>
    (Normal tt,
     {| sessions := sessions w; emitted := emitted w;
        console := console w ++ [l]; invocations := invocations w; appended := appended w |}).

(** [console.warn(text)] *)
Definition console_warn (text : string) : Eff unit :=
  console_log (console_warn_line text).

(** [console.error(text, err)] *)
Definition console_error (text : string) (err : Err.t) : Eff unit :=
  console_log (console_error_line text err).

(** ** The session store ([models/Session]) *)

Module Session.

(** Modelled from the spec: [Session.getById] (the session model is not
    among the sources).  It resolves a session by its identifier and finds
    nothing when the identifier is unknown; the session is represented by
    its ordered message sequence. *)
Definition getById (sessionId : string) : Eff (option (list Msg.t)) :=
  fun w => (Normal (sessions w !! sessionId), w).

(** Modelled from the spec: [Session.addMessage] (the session model is not
    among the sources).  It appends to the message sequence of the session.
    The spec requires the session to exist and says nothing otherwise; an
    unknown identifier leaves the store as it is here. *)
Definition addMessage (sessionId : string) (message : Msg.t) : Eff unit :=
  fun w =>
    (Normal tt,
     {| sessions := alter (fun l => (l ++ [message])) sessionId (sessions w);
        emitted := emitted w; console := console w;
        invocations := invocations w;
        appended := appended w ++ [(sessionId, message)] |}).

(** Modelled from the spec: [Session.getHistory] (the session model is not
    among the sources).  It returns a snapshot of the ordered message
    sequence: a list of its own, which later [addMessage] calls do not
    touch. *)
Definition getHistory (sessionId : string) : Eff (list Msg.t) :=
  fun w => (Normal (default [] (sessions w !! sessionId)), w).

End Session.

(** ** The model response generator ([bedrockService]) *)

(** How one backend call ends: it returns the aggregated text (possibly
    [undefined]) or throws. *)
Inductive Outcome :=
| Returns (text : option string)
| Fails (err : Err.t).

(** What one backend call does: the fragments it hands to the chunk callback,
    in arrival order, and how it ends. *)
Record Stream := { fragments : list string; outcome : Outcome }.

(** The backend, an external collaborator: any function of the model
    reference, the transcript and the generation parameters. *)
Definition Generator : Type := string -> list Msg.t -> Parameters -> Stream.

(** Modelled from the spec: [generateStreamingResponse] (the Bedrock service
    is not among the sources).  It invokes the chunk callback zero or more
    times with successive fragments, then returns the aggregated text or
    fails with a backend error.  The call is recorded in [invocations]. *)
Definition generateStreamingResponse (backend : Generator)
    (modelId : string) (history : list Msg.t) (parameters : Parameters)
    (onChunk : string -> Eff unit) : Eff (option string) :=
  let stream := backend modelId history parameters in
  (fun w =>
     (Normal tt,
      {| sessions := sessions w; emitted := emitted w; console := console w;
         invocations :=
           invocations w
           ++ [{| inv_modelId := modelId; inv_history := history;
                  inv_parameters := parameters |}];
         appended := appended w |})) ;;
  for_each (fragments stream) onChunk ;;
  match outcome stream with
  | Returns text => ret text
  | Fails err => throw err
  end.

(** ** The per-model step *)

(** [!completeResponse || completeResponse.trim() === ''] *)
Definition isBlank (completeResponse : option string) : bool :=
  match completeResponse with
  | None => true
  | Some s => Js.isEmpty s || Js.isEmpty (Js.trim s)
  end.

(** [completeResponse.startsWith('Error:')], reached on a non-empty string *)
Definition isErrorText (completeResponse : option string) : bool :=
  match completeResponse with
  | None => false
  | Some s => Js.startsWith s "Error:"
  end.

Definition noResponseText (id : string) : string :=
  "No response was generated from " +:+ id +:+
  ". This could be due to an issue with the model configuration or the input provided.".

Definition errorText (err : Err.t) : string :=
  "Error: " +:+ Js.or_else (Err.message err) "An unknown error occurred".

Section Pipeline.

Variable backend : Generator.

(** [processModel(socket, sessionId, model, history)].  The promise it
    returns is resolved with [Normal] and would be rejected with [Throw]. *)
Definition processModel (sessionId : string) (model : Model.t)
    (history : list Msg.t) : Eff string :=
  try_catch
    (response <-
       generateStreamingResponse backend
         (modelId (Model.config model)) history
         (parameters (Model.config model))
         (fun chunk =>
            socket_emit
              (receive_message (Model.id model) chunk false sessionId
                 (Model.order model))) ;;
     let completeResponse := response in
     completeResponse <-
       (if isBlank completeResponse || isErrorText completeResponse then
          console_warn ("Warning: Empty or error response from " +:+ Model.id model) ;;
          if isBlank completeResponse then
            let completeResponse := noResponseText (Model.id model) in
            socket_emit
              (receive_message (Model.id model) completeResponse false
                 sessionId (Model.order model)) ;;
            ret completeResponse
          else ret (default "" completeResponse)
        else ret (default "" completeResponse)) ;;
     socket_emit
       (receive_message (Model.id model) "" true sessionId (Model.order model)) ;;
     Session.addMessage sessionId
       {| Msg.role := assistant; Msg.modelId := Some (Model.id model);
          Msg.content := completeResponse |} ;;
     ret completeResponse)
    (fun err =>
       console_error ("Error processing model " +:+ Model.id model +:+ ":") err ;;
       let errorMessage := errorText err in
       socket_emit
         (receive_message (Model.id model) errorMessage false sessionId
            (Model.order model)) ;;
       socket_emit
         (receive_message (Model.id model) "" true sessionId (Model.order model)) ;;
       ret errorMessage).

(** ** The sequencer *)

Variable cfg : Config.

(** The [models] array of [processModelsInSequence]. *)
Definition sequence : list Model.t :=
  [ {| Model.id := "deepseek"; Model.config := deepseek (models cfg); Model.order := 1 |};
    {| Model.id := "nova"; Model.config := nova (models cfg); Model.order := 2 |} ].

Section Sequencer.

(** The awaited per-model step.  The sequencer and the handler are written
    over any step, so that their own [catch] blocks can be exercised;
    the program runs them with [processModel]. *)
Variable step : string -> Model.t -> list Msg.t -> Eff string.

(** [for (const model of models) { ... }].  The working transcript
    [history] is one array mutated in place; its contents at the end of
    the loop are returned. *)
Fixpoint forModels (sessionId : string) (ms : list Model.t)
    (history : list Msg.t) : Eff (list Msg.t) :=
  match ms with
  | [] => ret history
  | model :: rest =>
      modelResponse <- step sessionId model history ;;
      let history :=
        (history ++ [ {| Msg.role := assistant; Msg.modelId := Some (Model.id model);
                         Msg.content := modelResponse |} ]) in
      socket_emit
        (model_complete (Model.id model) sessionId (Model.order model)) ;;
      forModels sessionId rest history
  end.

Definition processModelsInSequenceWith (sessionId : string)
    (history : list Msg.t) : Eff (list Msg.t) :=
  try_catch
    (history <- forModels sessionId sequence history ;;
     socket_emit (all_responses_complete sessionId) ;;
     ret history)
    (fun err =>
       console_error "Error in model sequence processing:" err ;;
       throw err).

(** [const { message, sessionId } = data] *)
Definition destructure (payload : Payload) : Eff Data.t :=
  match payload with
  | Object data => ret data
  | Nullish raised => throw raised
  end.

(** The [send_message] handler installed by [setupSocketHandlers]. *)
Definition handleSendMessageWith (payload : Payload) : Eff unit :=
  try_catch
    (data <- destructure payload ;;
     let message := Data.message data in
     let sessionId := Data.sessionId data in
     session <- Session.getById sessionId ;;
     match session with
     | None => socket_emit (error "invalid_session" "Invalid session ID")
     | Some _ =>
         Session.addMessage sessionId
           {| Msg.role := user; Msg.modelId := None; Msg.content := message |} ;;
         history <- Session.getHistory sessionId ;;
         processModelsInSequenceWith sessionId history ;;
         ret tt
     end)
    (fun err =>
       console_error "Error processing message:" err ;;
       socket_emit (error "model_error" "Error processing your message")).

(** The handler on a payload that is an object. *)
Definition onSendMessageWith (data : Data.t) : Eff unit :=
  handleSendMessageWith (Object data).

End Sequencer.

(** [processModelsInSequence(socket, sessionId, history)] *)
Definition processModelsInSequence : string -> list Msg.t -> Eff (list Msg.t) :=
  processModelsInSequenceWith processModel.

(** [socket.on('send_message', async (data) => { ... })] *)
Definition handleSendMessage : Payload -> Eff unit :=
  handleSendMessageWith processModel.

(** The same on a payload that is an object. *)
Definition onSendMessage : Data.t -> Eff unit :=
  onSendMessageWith processModel.

End Pipeline.

(** ** Vocabulary of the statements *)

(** The non-terminal [receive_message] of a model carrying [text]. *)
Definition chunkOf (sessionId : string) (model : Model.t) (text : string) : Event :=
  receive_message (Model.id model) text false sessionId (Model.order model).

(** The terminal [receive_message] of a model: empty text, [isComplete] set. *)
Definition terminalOf (sessionId : string) (model : Model.t) : Event :=
  receive_message (Model.id model) "" true sessionId (Model.order model).

(** The assistant message of a model with the given content. *)
Definition assistantOf (model : Model.t) (text : string) : Msg.t :=
  {| Msg.role := assistant; Msg.modelId := Some (Model.id model); Msg.content := text |}.

Definition userOf (text : string) : Msg.t :=
  {| Msg.role := user; Msg.modelId := None; Msg.content := text |}.

(** The backend call the step of [model] makes on the transcript [history]. *)
Definition callOf (backend : Generator) (model : Model.t) (history : list Msg.t) : Stream :=
  backend (modelId (Model.config model)) history (parameters (Model.config model)).

Definition invocationOf (model : Model.t) (history : list Msg.t) : Invocation :=
  {| inv_modelId := modelId (Model.config model); inv_history := history;
     inv_parameters := parameters (Model.config model) |}.

(** The text a step resolves with, by the way its backend call ends. *)
Definition stepText (model : Model.t) (s : Stream) : string :=
  match outcome s with
  | Fails err => errorText err
  | Returns text =>
      if isBlank text then noResponseText (Model.id model) else default "" text
  end.

(** The events a step emits, in order. *)
Definition stepEvents (sessionId : string) (model : Model.t) (s : Stream) : list Event :=
  (map (chunkOf sessionId model) (fragments s)
   ++ match outcome s with
      | Fails err => [chunkOf sessionId model (errorText err)]
      | Returns text =>
          if isBlank text then [chunkOf sessionId model (noResponseText (Model.id model))]
          else []
      end
   ++ [terminalOf sessionId model]).

(** The console lines a step writes. *)
Definition stepLogs (model : Model.t) (s : Stream) : list LogLine :=
  match outcome s with
  | Fails err =>
      [console_error_line ("Error processing model " +:+ Model.id model +:+ ":") err]
  | Returns text =>
      if isBlank text || isErrorText text
      then [console_warn_line ("Warning: Empty or error response from " +:+ Model.id model)]
      else []
  end.

(** The session store after a step: only a backend call that returns reaches
    [Session.addMessage]. *)
Definition stepSessions (sessionId : string) (model : Model.t) (s : Stream)
    (store : gmap string (list Msg.t)) : gmap string (list Msg.t) :=
  match outcome s with
  | Fails _ => store
  | Returns _ =>
      alter (fun l => (l ++ [assistantOf model (stepText model s)])) sessionId store
  end.

(** The [Session.addMessage] calls of a step. *)
Definition stepAppends (sessionId : string) (model : Model.t) (s : Stream)
    : list (string * Msg.t) :=
  match outcome s with
  | Fails _ => []
  | Returns _ => [(sessionId, assistantOf model (stepText model s))]
  end.

Definition stepWorld (backend : Generator) (sessionId : string) (model : Model.t)
    (history : list Msg.t) (w : World) : World :=
  let s := callOf backend model history in
  {| sessions := stepSessions sessionId model s (sessions w);
     emitted := emitted w ++ stepEvents sessionId model s;
     console := console w ++ stepLogs model s;
     invocations := invocations w ++ [invocationOf model history];
     appended := appended w ++ stepAppends sessionId model s |}.

(** The assistant messages the loop appends to the working transcript
    [history], one per model, each computed on the transcript extended with
    the earlier ones. *)
Fixpoint answers (backend : Generator) (ms : list Model.t) (history : list Msg.t)
    : list Msg.t :=
  match ms with
  | [] => []
  | model :: rest =>
      let a := assistantOf model (stepText model (callOf backend model history)) in
      a :: answers backend rest (history ++ [a])
  end.

(** The world after the loop has run [ms] with [processModel]. *)
Fixpoint loopWorld (backend : Generator) (sessionId : string) (ms : list Model.t)
    (history : list Msg.t) (w : World) : World :=
  match ms with
  | [] => w
  | model :: rest =>
      let a := assistantOf model (stepText model (callOf backend model history)) in
      let w1 := stepWorld backend sessionId model history w in
      let w2 :=
        {| sessions := sessions w1;
           emitted := emitted w1 ++ [model_complete (Model.id model) sessionId (Model.order model)];
           console := console w1; invocations := invocations w1; appended := appended w1 |} in
      loopWorld backend sessionId rest (history ++ [a]) w2
  end.

(** The world after the handler has appended the user message. *)
Definition withUser (sessionId message : string) (w : World) : World :=
  {| sessions := alter (fun l => (l ++ [userOf message])) sessionId (sessions w);
     emitted := emitted w; console := console w; invocations := invocations w;
     appended := appended w ++ [(sessionId, userOf message)] |}.

(** The world after a whole run of the handler on a session whose transcript
    was [old]. *)
Definition runWorld (backend : Generator) (cfg : Config) (data : Data.t)
    (old : list Msg.t) (w : World) : World :=
  let sessionId := Data.sessionId data in
  let w2 :=
    loopWorld backend sessionId (sequence cfg) (old ++ [userOf (Data.message data)])
      (withUser sessionId (Data.message data) w) in
  {| sessions := sessions w2;
     emitted := emitted w2 ++ [all_responses_complete sessionId];
     console := console w2; invocations := invocations w2; appended := appended w2 |}.

(** [s] is read off as white space characters, one after the other, within
    [n] characters. *)
Fixpoint whitespaceOnlyWithin (n : nat) (s : string) : bool :=
  match s with
  | EmptyString => true
  | String _ _ =>
      match n with
      | O => false
      | S n' =>
          match Js.dropWhiteSpace s with
          | Some rest => whitespaceOnlyWithin n' rest
          | None => false
          end
      end
  end.

(** Every character of [s] is white space (so is the empty string). *)
Definition whitespaceOnly (s : string) : bool :=
  whitespaceOnlyWithin (String.length s) s.

(** The last [receive_message] for the model [id] among [events], if any. *)
Definition lastReceiveFor (id : string) (events : list Event) : option Event :=
  last (List.filter (fun e => match e with
                              | receive_message m _ _ _ _ => String.eqb m id
                              | _ => false
                              end) events).

(** ** Concrete inputs *)

Module Example.

Definition params : Parameters :=
  {| temperature := Js.Num (7 # 10); maxTokens := Js.Num 1000 |}.

(** The configuration when no environment variable is set. *)
Definition cfg : Config :=
  {| models :=
       {| deepseek := {| modelId := "us.deepseek.r1-v1:0"; parameters := params |};
          nova := {| modelId := "us.amazon.nova-lite-v1:0"; parameters := params |} |} |}.

Definition deepseekModel : Model.t :=
  {| Model.id := "deepseek"; Model.config := deepseek (models cfg); Model.order := 1 |}.

Definition novaModel : Model.t :=
  {| Model.id := "nova"; Model.config := nova (models cfg); Model.order := 2 |}.

(** A store holding the session [s1] with an empty transcript. *)
Definition world : World :=
  {| sessions := {[ "s1" := [] ]}; emitted := []; console := [];
     invocations := []; appended := [] |}.

Definition hi : Data.t := {| Data.message := "hi"; Data.sessionId := "s1" |}.

(** A send to a session the store does not know. *)
Definition stray : Data.t := {| Data.message := "hi"; Data.sessionId := "s2" |}.

Definition lastContent (history : list Msg.t) : string :=
  match last history with
  | Some m => Msg.content m
  | None => ""
  end.

(** The first model answers [hello]; the second answers [hi, ] followed by
    the content of the last message of the transcript it is given. *)
Definition greeter : Generator :=
  fun modelId history _ =>
    if String.eqb modelId "us.deepseek.r1-v1:0"
    then {| fragments := ["hello"]; outcome := Returns (Some "hello") |}
    else
      let text := "hi, " +:+ lastContent history in
      {| fragments := [text]; outcome := Returns (Some text) |}.

(** The first model's call throws after one fragment; the second returns. *)
Definition faulty : Generator :=
  fun modelId _ _ =>
    if String.eqb modelId "us.deepseek.r1-v1:0"
    then {| fragments := ["par"]; outcome := Fails {| Err.message := Some "boom" |} |}
    else {| fragments := ["ok"]; outcome := Returns (Some "ok") |}.

(** The first model returns only white space, the second an error text. *)
Definition silent : Generator :=
  fun modelId _ _ =>
    if String.eqb modelId "us.deepseek.r1-v1:0"
    then {| fragments := []; outcome := Returns (Some "  ") |}
    else {| fragments := []; outcome := Returns (Some "Error: throttled") |}.

(** A step whose own containment is broken: it rejects on the second
    model and behaves as [processModel] on the first. *)
Definition leaky (sessionId : string) (model : Model.t) (history : list Msg.t)
    : Eff string :=
  if String.eqb (Model.id model) "nova"
  then throw {| Err.message := Some "defect" |}
  else processModel greeter sessionId model history.

End Example.

(** ** The rest of the exported configuration *)

(** [process.env.PORT || 3001]: the text of the variable, or the number. *)
Inductive Port :=
| PortText (text : string)
| PortNumber (n : Z).

Record ServerConfig := { port : Port; jwtSecret : string; authPassword : string }.

Record AwsConfig := { region : string }.

(** The object [config/index.js] exports, as lines 3 to 29 build it from
    [process.env]; [pipeline] holds its [models] block. *)
Record Exports := { server : ServerConfig; aws : AwsConfig; pipeline : Config }.

Definition exports (parseFloat parseInt : string -> Js.Number)
    (env : gmap string string) : Exports :=
  {| server :=
       {| port :=
            match env !! "PORT" with
            | Some text => if Js.isEmpty text then PortNumber 3001 else PortText text
            | None => PortNumber 3001
            end;
          jwtSecret := env_or env "JWT_SECRET" "";
          authPassword := env_or env "AUTH_PASSWORD" "" |};
     aws := {| region := env_or env "AWS_REGION" "us-east-1" |};
     pipeline := config parseFloat parseInt env |}.

(** [require('dotenv').config()], line 1: the variables of the [.env] file
    (none when there is no file) are added to [process.env]; a variable the
    environment already has, be it with the empty string, keeps its value. *)
Definition dotenv_config (file env : gmap string string) : gmap string string :=
  env ∪ file.

(** The module as a whole: line 1, then lines 3 to 29. *)
Definition moduleExports (parseFloat parseInt : string -> Js.Number)
    (file env : gmap string string) : Exports :=
  exports parseFloat parseInt (dotenv_config file env).

(** ** Further vocabulary *)

(** The backend call returned rather than threw. *)
Definition returned (s : Stream) : bool :=
  match outcome s with
  | Returns _ => true
  | Fails _ => false
  end.

(** The event belongs to a run on [sessionId]: it carries that session id,
    and a model event pairs [deepseek] with order 1 or [nova] with order 2.
    An [error] event is not of this kind. *)
Definition wellTagged (sessionId : string) (e : Event) : bool :=
  match e with
  | receive_message m _ _ sid o
  | model_complete m sid o =>
      String.eqb sid sessionId
      && ((String.eqb m "deepseek" && (o =? 1)) || (String.eqb m "nova" && (o =? 2)))
  | all_responses_complete sid => String.eqb sid sessionId
  | error _ _ => false
  end.

(** The backend call returned a text the step accepts without a warning:
    neither blank nor starting with [Error:]. *)
Definition clean (s : Stream) : bool :=
  match outcome s with
  | Returns (Some text) =>
      negb (whitespaceOnly text) && negb (Js.startsWith text "Error:")
  | Returns None | Fails _ => false
  end.

(** The variables of the environment [config/index.js] reads. *)
Definition configVariables : list string :=
  ["PORT"; "JWT_SECRET"; "AUTH_PASSWORD"; "AWS_REGION";
   "DEEPSEEK_MODEL_ID"; "DEEPSEEK_TEMPERATURE"; "DEEPSEEK_MAX_TOKENS";
   "NOVA_MODEL_ID"; "NOVA_TEMPERATURE"; "NOVA_MAX_TOKENS"].

Module Sample.

(** A second send on the session of [Example.hi]. *)
Definition more : Data.t := {| Data.message := "more"; Data.sessionId := "s1" |}.

(** A backend whose calls return [undefined]. *)
Definition mute : Generator :=
  fun _ _ _ => {| fragments := []; outcome := Returns None |}.

(** The store of [Example.world] with one more session. *)
Definition twoSessions : World :=
  {| sessions := {[ "s1" := []; "s2" := [userOf "earlier"] ]}; emitted := [];
     console := []; invocations := []; appended := [] |}.

Definition parseNothing (text : string) : Js.Number := Js.NaN.

(** A parser that knows three texts. *)
Definition parseKnown (text : string) : Js.Number :=
  if String.eqb text "0.7" then Js.Num (7 # 10)
  else if String.eqb text "1000" then Js.Num 1000
  else if String.eqb text "256" then Js.Num 256
  else Js.NaN.

(** White space beyond Latin-1: U+3000, U+2028, a space and U+FEFF. *)
Definition wideBlank : string :=
  Js.utf8 12288 +:+ Js.utf8 8232 +:+ " " +:+ Js.utf8 65279.

(** A backend whose calls return [wideBlank]. *)
Definition hushed : Generator :=
  fun _ _ _ => {| fragments := []; outcome := Returns (Some wideBlank) |}.

(** A backend whose calls return U+200B, which is no white space. *)
Definition zeroWidth : Generator :=
  fun _ _ _ => {| fragments := []; outcome := Returns (Some (Js.utf8 8203)) |}.



(** A [.env] file and an environment: the environment sets [PORT] and
    [NOVA_MAX_TOKENS] to the empty string, the file names both and the
    reference of [nova]. *)
Definition dotenvFile : gmap string string :=
  {[ "PORT" := "8080"; "NOVA_MODEL_ID" := "nova-pro"; "NOVA_MAX_TOKENS" := "256" ]}.

Definition blanked : gmap string string :=
  {[ "PORT" := ""; "NOVA_MAX_TOKENS" := "" ]}.

(** An environment that sets [PORT] to the empty string. *)
Definition blankPort : gmap string string :=
  {[ "PORT" := ""; "NOVA_MODEL_ID" := "nova-pro" ]}.

End Sample.

(** ** The steps of the program in closed form *)

(** *** Strings *)

(** The encodings of some white space characters, byte by byte. *)
Lemma utf8_samples :
  List.map (fun c => List.map nat_of_ascii (list_ascii_of_string (Js.utf8 c)))
    [32; 160; 5760; 8202; 8232; 8239; 8287; 12288; 65279]%N =
  [[32]; [194; 160]; [225; 154; 128]; [226; 128; 138]; [226; 128; 168];
   [226; 128; 175]; [226; 129; 159]; [227; 128; 128]; [239; 187; 191]]%nat.
Proof. reflexivity. Qed.

Lemma dropPrefix_length (p s rest : string) :
  Js.dropPrefix p s = Some rest ->
  String.length s = (String.length p + String.length rest)%nat.
Proof.
  revert s. induction p as [|a p IH]; intros s H; cbn in H.
  - by injection H as ->.
  - destruct s as [|b s]; [done|]. destruct (Ascii.eqb a b); [|done].
    cbn. by rewrite (IH _ H).
Qed.

Lemma dropWhiteSpace_word (s rest : string) :
  Js.dropWhiteSpace s = Some rest ->
  exists w, In w Js.whiteSpace /\ Js.dropPrefix w s = Some rest.
Proof.
  unfold Js.dropWhiteSpace. induction Js.whiteSpace as [|w ws IH]; cbn; [done|].
  destruct (Js.dropPrefix w s) as [r|] eqn:Hw.
  - intros [= ->]. eauto.
  - intros H. destruct (IH H) as (w' & Hin & Hd). eauto.
Qed.

Lemma whiteSpace_nonempty (w : string) :
  In w Js.whiteSpace -> (1 <= String.length w)%nat.
Proof.
  assert (H : forallb (fun w => (1 <=? String.length w)%nat) Js.whiteSpace = true)
    by reflexivity.
  rewrite forallb_forall in H. intros Hin. apply Nat.leb_le. by apply H.
Qed.

(** Dropping a white space character makes the string shorter. *)
Lemma dropWhiteSpace_shorter (s rest : string) :
  Js.dropWhiteSpace s = Some rest -> (String.length rest < String.length s)%nat.
Proof.
  intros H. destruct (dropWhiteSpace_word s rest H) as (w & Hin & Hd).
  pose proof (whiteSpace_nonempty w Hin). pose proof (dropPrefix_length w s rest Hd). lia.
Qed.

Lemma dropWhiteSpace_empty : Js.dropWhiteSpace "" = None.
Proof. reflexivity. Qed.

(** More room than the length of the string changes nothing. *)
Lemma whitespaceOnlyWithin_enough (n : nat) (s : string) :
  (String.length s <= n)%nat -> whitespaceOnlyWithin n s = whitespaceOnly s.
Proof.
  unfold whitespaceOnly. remember (String.length s) as m eqn:Hm.
  intros Hle. revert n s Hm Hle.
  induction m as [m IH] using lt_wf_ind. intros n s Hm Hle.
  destruct s as [|c r]; [by destruct n, m|].
  destruct n as [|n]; [cbn in Hm; lia|]. destruct m as [|m]; [done|].
  cbn [whitespaceOnlyWithin].
  destruct (Js.dropWhiteSpace (String c r)) as [rest|] eqn:Hd; [|done].
  pose proof (dropWhiteSpace_shorter _ _ Hd) as Hlt.
  rewrite (IH (String.length rest)) by lia.
  symmetry. apply (IH (String.length rest)); lia.
Qed.

Lemma trimStartWithin_whitespaceOnly (n : nat) (s : string) :
  (String.length s <= n)%nat ->
  whitespaceOnly (Js.trimStartWithin n s) = whitespaceOnly s.
Proof.
  revert s. induction n as [|n IH]; intros s Hle; [done|].
  cbn [Js.trimStartWithin].
  destruct (Js.dropWhiteSpace s) as [rest|] eqn:Hd; [|done].
  pose proof (dropWhiteSpace_shorter _ _ Hd) as Hlt.
  rewrite IH by lia.
  destruct s as [|c r]; [by rewrite dropWhiteSpace_empty in Hd|].
  unfold whitespaceOnly at 2. cbn [String.length whitespaceOnlyWithin].
  rewrite Hd. symmetry. apply whitespaceOnlyWithin_enough. cbn in Hlt. lia.
Qed.

Lemma trimStart_whitespaceOnly s :
  whitespaceOnly (Js.trimStart s) = whitespaceOnly s.
Proof. by apply trimStartWithin_whitespaceOnly. Qed.

Lemma trimStartWithin_empty (n : nat) (s : string) :
  (String.length s <= n)%nat ->
  Js.isEmpty (Js.trimStartWithin n s) = whitespaceOnlyWithin n s.
Proof.
  revert s. induction n as [|n IH]; intros s Hle.
  - destruct s; [done|cbn in Hle; lia].
  - destruct s as [|c r]; [done|]. cbn [Js.trimStartWithin whitespaceOnlyWithin].
    destruct (Js.dropWhiteSpace (String c r)) as [rest|] eqn:Hd; [|done].
    pose proof (dropWhiteSpace_shorter _ _ Hd) as Hlt. apply IH. cbn in Hlt, Hle. lia.
Qed.

(** [trimStart] leaves nothing exactly of a string made of white space. *)
Lemma trimStart_empty s : Js.isEmpty (Js.trimStart s) = whitespaceOnly s.
Proof. by apply trimStartWithin_empty. Qed.

Lemma trimEnd_whitespaceOnly s :
  Js.isEmpty (Js.trimEnd s) = whitespaceOnly s.
Proof.
  rewrite <- trimStart_empty. destruct s as [|c r]; [done|].
  cbn [Js.trimEnd]. by destruct (Js.trimStart (String c r)).
Qed.

(** [s.trim() === ''] says that [s] is empty or white space only. *)
Lemma trim_whitespaceOnly s : Js.isEmpty (Js.trim s) = whitespaceOnly s.
Proof.
  unfold Js.trim. by rewrite trimEnd_whitespaceOnly, trimStart_whitespaceOnly.
Qed.

Lemma isBlank_whitespaceOnly s : isBlank (Some s) = whitespaceOnly s.
Proof.
  cbn. rewrite trim_whitespaceOnly. destruct s; done.
Qed.

(** A text that starts with [Error:] is not blank. *)
Lemma startsWith_Error_not_blank s :
  Js.startsWith s "Error:" = true -> isBlank (Some s) = false.
Proof.
  intros H. rewrite isBlank_whitespaceOnly.
  destruct s as [|c r]; [discriminate|].
  unfold Js.startsWith in H. cbn [String.prefix] in H.
  destruct (ascii_dec "E" c) as [Hc|Hc]; [|discriminate].
  by rewrite <- Hc.
Qed.

(** On an object the destructuring succeeds and the handler goes on with
    the two fields. *)
Lemma onSendMessageWith_object (cfg : Config)
    (step : string -> Model.t -> list Msg.t -> Eff string) (data : Data.t) :
  onSendMessageWith cfg step data =
  try_catch
    (let message := Data.message data in
     let sessionId := Data.sessionId data in
     session <- Session.getById sessionId ;;
     match session with
     | None => socket_emit (error "invalid_session" "Invalid session ID")
     | Some _ =>
         Session.addMessage sessionId
           {| Msg.role := user; Msg.modelId := None; Msg.content := message |} ;;
         history <- Session.getHistory sessionId ;;
         processModelsInSequenceWith cfg step sessionId history ;;
         ret tt
     end)
    (fun err =>
       console_error "Error processing message:" err ;;
       socket_emit (error "model_error" "Error processing your message")).
Proof. reflexivity. Qed.

Section Facts.

Variable backend : Generator.

Lemma for_each_emit (f : string -> Event) (l : list string) (w : World) :
  for_each l (fun x => socket_emit (f x)) w =
  (Normal tt,
   {| sessions := sessions w; emitted := emitted w ++ map f l;
      console := console w; invocations := invocations w; appended := appended w |}).
Proof.
  revert w. induction l as [|x l IH]; intros w; cbn.
  - unfold ret. rewrite app_nil_r. by destruct w.
  - unfold bind, socket_emit. cbn. rewrite IH. cbn.
    by rewrite <- app_assoc.
Qed.

(** [processModel] always resolves: with the text and in the world given
    by the closed forms above. *)
Lemma processModel_run sessionId model history w :
  processModel backend sessionId model history w =
  (Normal (stepText model (callOf backend model history)),
   stepWorld backend sessionId model history w).
Proof.
  unfold processModel, try_catch, generateStreamingResponse, bind.
  cbn. rewrite for_each_emit. cbn.
  unfold stepWorld, stepEvents, stepLogs, stepSessions, stepAppends, callOf,
    chunkOf, terminalOf, assistantOf, invocationOf, stepText.
  destruct (outcome _) as [text|err] eqn:Ho; cbn.
  - destruct (isBlank text) eqn:Hb; cbn; rewrite ?Ho, ?Hb.
    + by rewrite <- !app_assoc.
    + destruct (isErrorText text); cbn; rewrite ?Ho, ?Hb;
        by rewrite ?app_nil_r, <- ?app_assoc.
  - by rewrite ?app_nil_r, <- ?app_assoc.
Qed.

(** The loop over any list of models, run with [processModel], never
    throws. *)
Lemma forModels_run sessionId ms history w :
  forModels (processModel backend) sessionId ms history w =
  (Normal (history ++ answers backend ms history),
   loopWorld backend sessionId ms history w).
Proof.
  revert history w. induction ms as [|model rest IH]; intros history w.
  - cbn. unfold ret. by rewrite app_nil_r.
  - cbn [forModels answers loopWorld]. unfold bind at 1.
    rewrite processModel_run. unfold bind, socket_emit at 1.
    rewrite IH. by rewrite <- app_assoc.
Qed.

Lemma processModelsInSequence_run cfg sessionId history w :
  processModelsInSequence backend cfg sessionId history w =
  (Normal (history ++ answers backend (sequence cfg) history),
   let w2 := loopWorld backend sessionId (sequence cfg) history w in
   {| sessions := sessions w2;
      emitted := emitted w2 ++ [all_responses_complete sessionId];
      console := console w2; invocations := invocations w2; appended := appended w2 |}).
Proof.
  unfold processModelsInSequence, processModelsInSequenceWith, try_catch, bind.
  by rewrite forModels_run.
Qed.

Lemma onSendMessage_valid cfg data old w :
  sessions w !! Data.sessionId data = Some old ->
  onSendMessage backend cfg data w = (Normal tt, runWorld backend cfg data old w).
Proof.
  intros Hs.
  unfold onSendMessage. rewrite onSendMessageWith_object.
  unfold try_catch, bind, Session.getById.
  rewrite Hs. cbn - [processModelsInSequenceWith].
  rewrite lookup_alter_eq, Hs. cbn - [processModelsInSequenceWith].
  fold (processModelsInSequence backend cfg).
  fold (withUser (Data.sessionId data) (Data.message data) w).
  by rewrite processModelsInSequence_run.
Qed.

End Facts.

(** ** Properties of the pipeline *)

(** *** Unknown sessions *)

(** C2: a [send_message] whose session id is unknown to the store ends with
    exactly one new event, [error] with code [invalid_session]; the store is
    untouched, [Session.addMessage] is not called, the generator is not
    invoked and nothing is logged. *)
Theorem unknown_session_only_reports (backend : Generator) (cfg : Config)
    (data : Data.t) (w : World) :
  sessions w !! Data.sessionId data = None ->
  onSendMessage backend cfg data w =
  (Normal tt,
   {| sessions := sessions w;
      emitted := emitted w ++ [error "invalid_session" "Invalid session ID"];
      console := console w;
      invocations := invocations w;
      appended := appended w |}).
Proof.
  intros Hs.
  unfold onSendMessage. rewrite onSendMessageWith_object.
  unfold try_catch, bind, Session.getById.
  by rewrite Hs.
Qed.

Lemma unknown_session_only_reports_witness :
  sessions Example.world !! Data.sessionId Example.stray = None /\
  onSendMessage Example.greeter Example.cfg Example.stray Example.world =
  (Normal tt,
   {| sessions := sessions Example.world;
      emitted := [error "invalid_session" "Invalid session ID"];
      console := []; invocations := []; appended := [] |}).
Proof.
  split; [reflexivity|].
  apply (unknown_session_only_reports Example.greeter Example.cfg
           Example.stray Example.world).
  reflexivity.
Defined.

(** *** The per-model step *)





(** C6: when the generator returns a text that starts with [Error:], the
    step resolves with that very text and stores it as the assistant
    message; no diagnostic is substituted and no chunk is emitted for it:
    after the streamed fragments comes the terminal chunk alone. *)
Theorem error_text_is_kept (backend : Generator) (sessionId : string)
    (model : Model.t) (history : list Msg.t) (w : World) (s : string) :
  outcome (callOf backend model history) = Returns (Some s) ->
  Js.startsWith s "Error:" = true ->
  processModel backend sessionId model history w =
  (Normal s,
   {| sessions := alter (fun l => (l ++ [assistantOf model s])) sessionId (sessions w);
      emitted :=
        emitted w
        ++ map (chunkOf sessionId model) (fragments (callOf backend model history))
        ++ [receive_message (Model.id model) "" true sessionId (Model.order model)];
      console :=
        console w
        ++ [console_warn_line ("Warning: Empty or error response from " +:+ Model.id model)];
      invocations := invocations w ++ [invocationOf model history];
      appended := appended w ++ [(sessionId, assistantOf model s)] |}).
Proof.
  intros Ho Hp.
  pose proof (startsWith_Error_not_blank s Hp) as Hb.
  rewrite processModel_run.
  unfold stepWorld, stepEvents, stepLogs, stepSessions, stepAppends, stepText.
  rewrite Ho, Hb. unfold isErrorText. rewrite Hp. reflexivity.
Qed.

Lemma error_text_is_kept_witness :
  outcome (callOf Example.silent Example.novaModel [userOf "hi"])
  = Returns (Some "Error: throttled") /\
  Js.startsWith "Error: throttled" "Error:" = true /\
  (processModel Example.silent "s1" Example.novaModel [userOf "hi"] Example.world).1
  = Normal "Error: throttled".
Proof.
  split; [reflexivity|]. split; [reflexivity|].
  rewrite (error_text_is_kept Example.silent "s1" Example.novaModel
             [userOf "hi"] Example.world "Error: throttled" eq_refl eq_refl).
  reflexivity.
Defined.

(** Whatever the backend does, the events of a step are non-terminal chunks
    of its model followed by the terminal chunk. *)
Lemma stepEvents_shape (sessionId : string) (model : Model.t) (s : Stream) :
  exists texts : list string,
    stepEvents sessionId model s =
    (map (chunkOf sessionId model) texts ++ [terminalOf sessionId model]).
Proof.
  unfold stepEvents.
  destruct (outcome s) as [text|err].
  - destruct (isBlank text).
    + exists (fragments s ++ [noResponseText (Model.id model)]).
      by rewrite map_app, <- app_assoc.
    + by exists (fragments s).
  - exists (fragments s ++ [errorText err]).
    by rewrite map_app, <- app_assoc.
Qed.

Lemma lastReceiveFor_app (id : string) (l1 l2 : list Event) :
  lastReceiveFor id (l1 ++ l2) =
  match lastReceiveFor id l2 with
  | Some e => Some e
  | None => lastReceiveFor id l1
  end.
Proof. unfold lastReceiveFor. by rewrite List.filter_app, last_app. Qed.

Lemma lastReceiveFor_chunks (id sessionId : string) (model : Model.t)
    (texts : list string) :
  lastReceiveFor id (map (chunkOf sessionId model) texts ++ [terminalOf sessionId model]) =
  if String.eqb (Model.id model) id then Some (terminalOf sessionId model) else None.
Proof.
  unfold lastReceiveFor. rewrite List.filter_app. cbn.
  destruct (String.eqb (Model.id model) id) eqn:He.
  - by rewrite last_snoc.
  - rewrite app_nil_r. induction texts as [|t texts IH]; cbn; [done|].
    by rewrite He.
Qed.

Lemma lastReceiveFor_step (id sessionId : string) (model : Model.t) (s : Stream) :
  lastReceiveFor id (stepEvents sessionId model s) =
  if String.eqb (Model.id model) id then Some (terminalOf sessionId model) else None.
Proof.
  destruct (stepEvents_shape sessionId model s) as [texts ->].
  apply lastReceiveFor_chunks.
Qed.

(** The events of a run on a valid session, model by model. *)
Lemma run_emitted (backend : Generator) (cfg : Config) (data : Data.t)
    (old : list Msg.t) (w : World) :
  let sessionId := Data.sessionId data in
  let h0 := (old ++ [userOf (Data.message data)]) in
  let d := {| Model.id := "deepseek"; Model.config := deepseek (models cfg);
              Model.order := 1 |} in
  let n := {| Model.id := "nova"; Model.config := nova (models cfg);
              Model.order := 2 |} in
  let s1 := callOf backend d h0 in
  let s2 := callOf backend n (h0 ++ [assistantOf d (stepText d s1)]) in
  emitted (runWorld backend cfg data old w) =
  (emitted w
   ++ stepEvents sessionId d s1 ++ [model_complete "deepseek" sessionId 1]
   ++ stepEvents sessionId n s2 ++ [model_complete "nova" sessionId 2]
   ++ [all_responses_complete sessionId]).
Proof.
  cbn. by rewrite <- !app_assoc.
Qed.

(** C4: on every outcome of the backend call, the events a step emits are
    chunks of its model with [isComplete] false followed by one last event,
    the chunk with empty text and [isComplete] true; and in a run on a valid
    session the last [receive_message] on the socket for each model of the
    sequence is that terminal chunk. *)
Theorem terminal_chunk_is_last (backend : Generator) (cfg : Config) :
  (forall (sessionId : string) (model : Model.t) (history : list Msg.t) (w : World),
      exists texts : list string,
        emitted (processModel backend sessionId model history w).2 =
        emitted w
        ++ map (fun text =>
                  receive_message (Model.id model) text false sessionId (Model.order model))
             texts
        ++ [receive_message (Model.id model) "" true sessionId (Model.order model)]) /\
  (forall (data : Data.t) (old : list Msg.t) (w : World) (model : Model.t),
      sessions w !! Data.sessionId data = Some old ->
      In model (sequence cfg) ->
      lastReceiveFor (Model.id model) (emitted (onSendMessage backend cfg data w).2) =
      Some (receive_message (Model.id model) "" true (Data.sessionId data)
              (Model.order model))).
Proof.
  split.
  - intros sessionId model history w. rewrite processModel_run. cbn.
    destruct (stepEvents_shape sessionId model (callOf backend model history))
      as [texts ->].
    by exists texts.
  - intros data old w model Hs Hin.
    rewrite (onSendMessage_valid backend cfg data old w Hs).
    cbn [snd]. rewrite run_emitted. cbn zeta.
    rewrite !lastReceiveFor_app, !lastReceiveFor_step.
    destruct Hin as [<-|[<-|[]]]; reflexivity.
Qed.

Lemma terminal_chunk_is_last_witness :
  sessions Example.world !! Data.sessionId Example.hi = Some [] /\
  In Example.novaModel (sequence Example.cfg) /\
  lastReceiveFor "nova"
    (emitted (onSendMessage Example.faulty Example.cfg Example.hi Example.world).2) =
  Some (receive_message "nova" "" true "s1" 2).
Proof.
  split; [reflexivity|]. split; [right; left; reflexivity|].
  destruct (terminal_chunk_is_last Example.faulty Example.cfg) as [_ H].
  apply (H Example.hi [] Example.world Example.novaModel).
  - reflexivity.
  - right; left; reflexivity.
Defined.

(** *** The sequence *)

Section Loop.

Variable backend : Generator.

Lemma answers_length (ms : list Model.t) (history : list Msg.t) :
  length (answers backend ms history) = length ms.
Proof.
  revert history. induction ms as [|m rest IH]; intros history; cbn; [done|].
  by rewrite IH.
Qed.

(** The message of position [k] is the answer of model [k] on the
    transcript extended with the earlier answers. *)
Lemma answers_lookup (ms : list Model.t) (history : list Msg.t) (k : nat)
    (model : Model.t) :
  ms !! k = Some model ->
  answers backend ms history !! k =
  Some (assistantOf model
          (stepText model
             (callOf backend model (history ++ take k (answers backend ms history))))).
Proof.
  revert history k. induction ms as [|m rest IH]; intros history k Hk; [done|].
  destruct k as [|k]; cbn in Hk |- *.
  - injection Hk as ->. by rewrite app_nil_r.
  - rewrite (IH _ _ Hk). by rewrite <- app_assoc.
Qed.

(** The loop calls the generator once per model, in order, each time on
    the transcript extended with the answers of the models before it. *)
Lemma loop_invocations (sessionId : string) (ms : list Model.t)
    (history : list Msg.t) (w : World) :
  invocations (loopWorld backend sessionId ms history w) =
  invocations w
  ++ imap (fun k model =>
             invocationOf model (history ++ take k (answers backend ms history)))
       ms.
Proof.
  revert history w. induction ms as [|m rest IH]; intros history w.
  - cbn. by rewrite app_nil_r.
  - cbn [loopWorld answers imap]. rewrite IH. cbn [invocations stepWorld].
    rewrite <- app_assoc. cbn. rewrite app_nil_r.
    do 2 f_equal. apply imap_ext. intros k model _. cbn.
    by rewrite <- app_assoc.
Qed.

End Loop.

(** C7: in a run on a valid session, the generator call of the model at
    position [k] receives the transcript of the session with the inbound
    user message, followed by the assistant messages of the models at
    positions [0 .. k-1] of this run, in order, and nothing of the later
    models; the transcript passed grows by exactly one message per step; and
    the message at position [k] is the assistant message of model [k] whose
    content is the text its step resolves with on that transcript. *)
Theorem transcript_seen_by_each_model (backend : Generator) (cfg : Config)
    (data : Data.t) (old : list Msg.t) (w : World) (k : nat) (model : Model.t) :
  sessions w !! Data.sessionId data = Some old ->
  sequence cfg !! k = Some model ->
  let h0 := old ++ [userOf (Data.message data)] in
  let produced := answers backend (sequence cfg) h0 in
  let seen := h0 ++ take k produced in
  invocations (onSendMessage backend cfg data w).2 !! (length (invocations w) + k)%nat =
  Some {| inv_modelId := modelId (Model.config model);
          inv_history := seen;
          inv_parameters := parameters (Model.config model) |} /\
  length seen = (length old + 1 + k)%nat /\
  (forall w1 : World,
      exists text : string,
        (processModel backend (Data.sessionId data) model seen w1).1 = Normal text /\
        produced !! k =
        Some {| Msg.role := assistant; Msg.modelId := Some (Model.id model);
                Msg.content := text |}) /\
  length (invocations (onSendMessage backend cfg data w).2) =
  (length (invocations w) + length (sequence cfg))%nat.
Proof.
  intros Hs Hk h0 produced seen.
  rewrite (onSendMessage_valid backend cfg data old w Hs).
  cbn [snd]. unfold runWorld. cbn [invocations].
  rewrite loop_invocations. fold h0. fold produced.
  assert (Hlt : (k < length (sequence cfg))%nat) by (by eapply lookup_lt_Some).
  repeat split.
  - change (invocations (withUser _ _ w)) with (invocations w).
    rewrite lookup_app_r by lia.
    replace (length (invocations w) + k - length (invocations w))%nat with k by lia.
    rewrite list_lookup_imap, Hk. reflexivity.
  - subst seen. rewrite !length_app, length_take.
    subst produced. rewrite answers_length. subst h0. rewrite length_app.
    cbn [length]. lia.
  - intros w1. exists (stepText model (callOf backend model seen)).
    rewrite processModel_run. split; [reflexivity|].
    subst produced seen. by rewrite (answers_lookup backend _ _ _ _ Hk).
  - rewrite length_app, length_imap. reflexivity.
Qed.

Lemma transcript_seen_by_each_model_witness :
  sessions Example.world !! Data.sessionId Example.hi = Some [] /\
  sequence Example.cfg !! 1%nat = Some Example.novaModel /\
  invocations (onSendMessage Example.greeter Example.cfg Example.hi Example.world).2
    !! 1%nat =
  Some {| inv_modelId := "us.amazon.nova-lite-v1:0";
          inv_history := [userOf "hi"; assistantOf Example.deepseekModel "hello"];
          inv_parameters := Example.params |}.
Proof.
  split; [reflexivity|]. split; [reflexivity|].
  destruct (transcript_seen_by_each_model Example.greeter Example.cfg Example.hi
              [] Example.world 1 Example.novaModel eq_refl eq_refl) as [H _].
  exact H.
Defined.

(** The store after a run in which both backend calls return. *)
Lemma run_sessions_returned (backend : Generator) (cfg : Config) (data : Data.t)
    (old : list Msg.t) (w : World) (r1 r2 : option string) :
  let sessionId := Data.sessionId data in
  let h0 := old ++ [userOf (Data.message data)] in
  let d := {| Model.id := "deepseek"; Model.config := deepseek (models cfg);
              Model.order := 1 |} in
  let n := {| Model.id := "nova"; Model.config := nova (models cfg);
              Model.order := 2 |} in
  let a1 := assistantOf d (stepText d (callOf backend d h0)) in
  let a2 := assistantOf n (stepText n (callOf backend n (h0 ++ [a1]))) in
  sessions w !! sessionId = Some old ->
  outcome (callOf backend d h0) = Returns r1 ->
  outcome (callOf backend n (h0 ++ [a1])) = Returns r2 ->
  sessions (runWorld backend cfg data old w) !! sessionId = Some (h0 ++ [a1; a2]).
Proof.
  intros sessionId h0 d n a1 a2 Hs H1 H2.
  unfold runWorld. cbn [sequence loopWorld sessions stepWorld].
  fold sessionId h0 d n. fold a1.
  unfold stepSessions. rewrite H1, H2.
  rewrite !lookup_alter_eq. unfold withUser. cbn [sessions].
  rewrite lookup_alter_eq. fold sessionId. rewrite Hs. cbn.
  subst a2 a1 h0. by rewrite <- !app_assoc.
Qed.

(** C8: in a run on a valid session the new events come model by model: the
    chunks of [deepseek], its terminal chunk, [model_complete] for it, then
    the same for [nova], and last one [all_responses_complete] with the
    session id; when both backend calls return, the transcript of the
    session ends with the user message and the two assistant messages, in
    that order. *)
Theorem events_come_model_by_model (backend : Generator) (cfg : Config)
    (data : Data.t) (old : list Msg.t) (w : World) :
  sessions w !! Data.sessionId data = Some old ->
  let sessionId := Data.sessionId data in
  let h0 := old ++ [userOf (Data.message data)] in
  let d := {| Model.id := "deepseek"; Model.config := deepseek (models cfg);
              Model.order := 1 |} in
  let n := {| Model.id := "nova"; Model.config := nova (models cfg);
              Model.order := 2 |} in
  let a1 := assistantOf d (stepText d (callOf backend d h0)) in
  let a2 := assistantOf n (stepText n (callOf backend n (h0 ++ [a1]))) in
  let w' := (onSendMessage backend cfg data w).2 in
  (exists chunks1 chunks2 : list string,
      emitted w' =
      emitted w
      ++ map (fun text => receive_message "deepseek" text false sessionId 1) chunks1
      ++ [receive_message "deepseek" "" true sessionId 1;
          model_complete "deepseek" sessionId 1]
      ++ map (fun text => receive_message "nova" text false sessionId 2) chunks2
      ++ [receive_message "nova" "" true sessionId 2;
          model_complete "nova" sessionId 2;
          all_responses_complete sessionId]) /\
  (forall r1 r2 : option string,
      outcome (callOf backend d h0) = Returns r1 ->
      outcome (callOf backend n (h0 ++ [a1])) = Returns r2 ->
      sessions w' !! sessionId = Some (old ++ [userOf (Data.message data); a1; a2])).
Proof.
  intros Hs sessionId h0 d n a1 a2 w'. subst w'.
  rewrite (onSendMessage_valid backend cfg data old w Hs). cbn [snd].
  split.
  - rewrite run_emitted. cbn zeta. fold sessionId h0 d n. fold a1.
    destruct (stepEvents_shape sessionId d (callOf backend d h0)) as [c1 ->].
    destruct (stepEvents_shape sessionId n (callOf backend n (h0 ++ [a1]))) as [c2 ->].
    exists c1, c2. unfold chunkOf, terminalOf. cbn.
    by rewrite <- !app_assoc.
  - intros r1 r2 H1 H2.
    etrans; [exact (run_sessions_returned backend cfg data old w r1 r2 Hs H1 H2)|].
    fold h0 d n. fold a1. fold a2. subst h0. by rewrite <- app_assoc.
Qed.

(** The end-to-end scenario: [A] is [deepseek] and answers [hello], [B] is
    [nova] and answers [hi, ] followed by the last content it is given. *)
Lemma events_come_model_by_model_witness :
  sessions Example.world !! Data.sessionId Example.hi = Some [] /\
  emitted (onSendMessage Example.greeter Example.cfg Example.hi Example.world).2 =
  [receive_message "deepseek" "hello" false "s1" 1;
   receive_message "deepseek" "" true "s1" 1;
   model_complete "deepseek" "s1" 1;
   receive_message "nova" "hi, hello" false "s1" 2;
   receive_message "nova" "" true "s1" 2;
   model_complete "nova" "s1" 2;
   all_responses_complete "s1"] /\
  sessions (onSendMessage Example.greeter Example.cfg Example.hi Example.world).2
    !! "s1" =
  Some [ {| Msg.role := user; Msg.modelId := None; Msg.content := "hi" |};
         {| Msg.role := assistant; Msg.modelId := Some "deepseek"; Msg.content := "hello" |};
         {| Msg.role := assistant; Msg.modelId := Some "nova"; Msg.content := "hi, hello" |} ].
Proof.
  split; [reflexivity|].
  destruct (events_come_model_by_model Example.greeter Example.cfg Example.hi []
              Example.world eq_refl) as [_ H].
  split; [reflexivity|].
  exact (H (Some "hello") (Some "hi, hello") eq_refl eq_refl).
Defined.

(** C10: whatever the configuration, the sequence has exactly two models,
    [deepseek] with order 1 then [nova] with order 2, each with its own
    block of the configuration; and a run on a valid session calls the
    generator exactly twice, first with the backend reference and
    parameters configured for [deepseek], then with those for [nova]. *)
Theorem sequence_is_hardcoded (backend : Generator) (cfg : Config)
    (data : Data.t) (old : list Msg.t) (w : World) :
  sessions w !! Data.sessionId data = Some old ->
  map Model.id (sequence cfg) = ["deepseek"; "nova"] /\
  map Model.order (sequence cfg) = [1; 2] /\
  map Model.config (sequence cfg) = [deepseek (models cfg); nova (models cfg)] /\
  exists h1 h2 : list Msg.t,
    invocations (onSendMessage backend cfg data w).2 =
    invocations w
    ++ [ {| inv_modelId := modelId (deepseek (models cfg)); inv_history := h1;
            inv_parameters := parameters (deepseek (models cfg)) |};
         {| inv_modelId := modelId (nova (models cfg)); inv_history := h2;
            inv_parameters := parameters (nova (models cfg)) |} ].
Proof.
  intros Hs. repeat split.
  rewrite (onSendMessage_valid backend cfg data old w Hs). cbn [snd].
  unfold runWorld. cbn [invocations]. rewrite loop_invocations.
  cbn. eauto.
Qed.

Lemma sequence_is_hardcoded_witness :
  sessions Example.world !! Data.sessionId Example.hi = Some [] /\
  map Model.id (sequence Example.cfg) = ["deepseek"; "nova"] /\
  map inv_modelId
    (invocations (onSendMessage Example.faulty Example.cfg Example.hi Example.world).2) =
  ["us.deepseek.r1-v1:0"; "us.amazon.nova-lite-v1:0"].
Proof.
  split; [reflexivity|].
  destruct (sequence_is_hardcoded Example.faulty Example.cfg Example.hi []
              Example.world eq_refl) as (Hid & _ & _ & h1 & h2 & Hinv).
  split; [exact Hid|].
  rewrite Hinv. reflexivity.
Defined.

(** The environment reaches the backend references, with the documented
    defaults, and nothing else of the sequence. *)
Lemma config_modelId (parseFloat parseInt : string -> Js.Number)
    (env : gmap string string) :
  modelId (deepseek (models (config parseFloat parseInt env))) =
  Js.or_else (env !! "DEEPSEEK_MODEL_ID") "us.deepseek.r1-v1:0" /\
  modelId (nova (models (config parseFloat parseInt env))) =
  Js.or_else (env !! "NOVA_MODEL_ID") "us.amazon.nova-lite-v1:0".
Proof. split; reflexivity. Qed.

Lemma sequence_of_environment (parseFloat parseInt : string -> Js.Number)
    (env : gmap string string) :
  map (fun model => (Model.id model, Model.order model))
    (sequence (config parseFloat parseInt env)) =
  [("deepseek", 1); ("nova", 2)].
Proof. reflexivity. Qed.

(** *** Failures *)

(** [processModel] never rejects, whatever the backend does. *)
Lemma processModel_resolves (backend : Generator) (sessionId : string)
    (model : Model.t) (history : list Msg.t) (w : World) :
  exists (text : string) (w' : World),
    processModel backend sessionId model history w = (Normal text, w').
Proof. rewrite processModel_run. eauto. Qed.

Section AnyStep.

Variable cfg : Config.
Variable step : string -> Model.t -> list Msg.t -> Eff string.

(** The loop over [pre ++ post] runs [pre], then [post] on the transcript
    and in the world [pre] left, unless a step of [pre] rejects. *)
Lemma forModels_app (sessionId : string) (pre post : list Model.t)
    (history : list Msg.t) (w : World) :
  forModels step sessionId (pre ++ post) history w =
  match forModels step sessionId pre history w with
  | (Normal history', w') => forModels step sessionId post history' w'
  | (Throw err, w') => (Throw err, w')
  end.
Proof.
  revert history w. induction pre as [|m pre IH]; intros history w; [done|].
  cbn [app forModels]. unfold bind, socket_emit.
  destruct (step sessionId m history w) as [[text|err] w1]; [|done].
  apply IH.
Qed.

(** C9: when the step of some model of the sequence rejects, after the
    models before it have run, the sequencer logs the error and rethrows
    it, the handler logs it and emits one [error] event with code
    [model_error], and nothing else happens: the final world is the one
    the rejecting step left, with these two console lines and this one
    event, so no later model is run and neither [model_complete] nor
    [all_responses_complete] follows. *)
Theorem unrecovered_step_failure_aborts (data : Data.t) (old : list Msg.t)
    (w : World) (pre post : list Model.t) (model : Model.t)
    (history : list Msg.t) (w2 w3 : World) (err : Err.t) :
  sessions w !! Data.sessionId data = Some old ->
  sequence cfg = pre ++ model :: post ->
  forModels step (Data.sessionId data) pre
    (old ++ [userOf (Data.message data)])
    (withUser (Data.sessionId data) (Data.message data) w) = (Normal history, w2) ->
  step (Data.sessionId data) model history w2 = (Throw err, w3) ->
  onSendMessageWith cfg step data w =
  (Normal tt,
   {| sessions := sessions w3;
      emitted := emitted w3 ++ [error "model_error" "Error processing your message"];
      console :=
        console w3
        ++ [console_error_line "Error in model sequence processing:" err;
            console_error_line "Error processing message:" err];
      invocations := invocations w3;
      appended := appended w3 |}).
Proof.
  intros Hs Hseq Hpre Hstep.
  rewrite onSendMessageWith_object.
  unfold try_catch at 1, bind at 1, Session.getById.
  rewrite Hs. unfold bind at 1. cbn [Session.addMessage].
  fold (userOf (Data.message data)).
  fold (withUser (Data.sessionId data) (Data.message data) w).
  unfold bind at 1, Session.getHistory.
  replace (default [] (sessions (withUser (Data.sessionId data) (Data.message data) w)
                         !! Data.sessionId data))
    with (old ++ [userOf (Data.message data)])
    by (cbn; by rewrite lookup_alter_eq, Hs).
  unfold bind at 1, processModelsInSequenceWith, try_catch at 1, bind at 1.
  rewrite Hseq, forModels_app, Hpre. cbn [forModels]. unfold bind at 1.
  rewrite Hstep. cbn. by rewrite <- app_assoc.
Qed.

End AnyStep.

Lemma unrecovered_step_failure_aborts_witness :
  sessions Example.world !! Data.sessionId Example.hi = Some [] /\
  sequence Example.cfg = [Example.deepseekModel] ++ Example.novaModel :: [] /\
  Example.leaky "s1" Example.novaModel
    [userOf "hi"; assistantOf Example.deepseekModel "hello"]
    (forModels Example.leaky "s1" [Example.deepseekModel] [userOf "hi"]
       (withUser "s1" "hi" Example.world)).2
  = (Throw {| Err.message := Some "defect" |},
     (forModels Example.leaky "s1" [Example.deepseekModel] [userOf "hi"]
        (withUser "s1" "hi" Example.world)).2) /\
  emitted (onSendMessageWith Example.cfg Example.leaky Example.hi Example.world).2 =
  [receive_message "deepseek" "hello" false "s1" 1;
   receive_message "deepseek" "" true "s1" 1;
   model_complete "deepseek" "s1" 1;
   error "model_error" "Error processing your message"].
Proof.
  split; [reflexivity|]. split; [reflexivity|]. split; [reflexivity|].
  rewrite (unrecovered_step_failure_aborts Example.cfg Example.leaky Example.hi []
             Example.world [Example.deepseekModel] [] Example.novaModel
             [userOf "hi"; assistantOf Example.deepseekModel "hello"]
             (forModels Example.leaky "s1" [Example.deepseekModel] [userOf "hi"]
                (withUser "s1" "hi" Example.world)).2
             (forModels Example.leaky "s1" [Example.deepseekModel] [userOf "hi"]
                (withUser "s1" "hi" Example.world)).2
             {| Err.message := Some "defect" |}
             eq_refl eq_refl eq_refl eq_refl).
  reflexivity.
Defined.

(** C1, at an input where the first backend call throws: the working
    transcript ends with the user message and one assistant message per
    model, but the catch block of [processModel] does not call
    [Session.addMessage], so the store holds the user message and the
    answer of [nova] only; the error text of [deepseek] is not in it. *)
Lemma failed_step_is_not_stored :
  let w := withUser "s1" "hi" Example.world in
  let w' := (onSendMessage Example.faulty Example.cfg Example.hi Example.world).2 in
  (processModelsInSequence Example.faulty Example.cfg "s1" [userOf "hi"] w).1 =
  Normal [userOf "hi";
          assistantOf Example.deepseekModel "Error: boom";
          assistantOf Example.novaModel "ok"] /\
  sessions w' !! "s1" = Some [userOf "hi"; assistantOf Example.novaModel "ok"] /\
  appended w' = [("s1", userOf "hi"); ("s1", assistantOf Example.novaModel "ok")].
Proof. vm_compute. repeat split. Qed.

(** ** Further properties of the per-model step *)

(** X1: a returned text that is neither blank nor an error text is passed
    through: the step resolves with it, forwards the fragments, adds the
    terminal chunk and nothing else, stores the text as the assistant message
    and writes nothing on the console. *)
Theorem normal_answer_passes_through (backend : Generator) (sessionId : string)
    (model : Model.t) (history : list Msg.t) (w : World) (s : string) :
  outcome (callOf backend model history) = Returns (Some s) ->
  whitespaceOnly s = false ->
  Js.startsWith s "Error:" = false ->
  processModel backend sessionId model history w =
  (Normal s,
   {| sessions := alter (fun l => l ++ [assistantOf model s]) sessionId (sessions w);
      emitted :=
        emitted w
        ++ map (chunkOf sessionId model) (fragments (callOf backend model history))
        ++ [receive_message (Model.id model) "" true sessionId (Model.order model)];
      console := console w;
      invocations := invocations w ++ [invocationOf model history];
      appended := appended w ++ [(sessionId, assistantOf model s)] |}).
Proof.
  intros Ho Hs Hp.
  assert (Hb : isBlank (Some s) = false) by (by rewrite isBlank_whitespaceOnly).
  rewrite processModel_run.
  unfold stepWorld, stepEvents, stepLogs, stepSessions, stepAppends, stepText.
  rewrite Ho, Hb. unfold isErrorText. rewrite Hp. cbn.
  by rewrite app_nil_r.
Qed.

Lemma normal_answer_passes_through_witness :
  (outcome (callOf Example.greeter Example.deepseekModel [userOf "hi"])
   = Returns (Some "hello") /\
   whitespaceOnly "hello" = false /\
   Js.startsWith "hello" "Error:" = false /\
   console (processModel Example.greeter "s1" Example.deepseekModel [userOf "hi"]
              Example.world).2 = []) /\
  (outcome (callOf Sample.zeroWidth Example.deepseekModel [userOf "hi"])
   = Returns (Some (Js.utf8 8203)) /\
   whitespaceOnly (Js.utf8 8203) = false /\
   (processModel Sample.zeroWidth "s1" Example.deepseekModel [userOf "hi"]
      Example.world).1 = Normal (Js.utf8 8203)).
Proof.
  split.
  - split; [reflexivity|]. split; [reflexivity|]. split; [reflexivity|].
    rewrite (normal_answer_passes_through Example.greeter "s1" Example.deepseekModel
               [userOf "hi"] Example.world "hello" eq_refl eq_refl eq_refl).
    reflexivity.
  - split; [reflexivity|]. split; [reflexivity|].
    rewrite (normal_answer_passes_through Sample.zeroWidth "s1" Example.deepseekModel
               [userOf "hi"] Example.world (Js.utf8 8203) eq_refl eq_refl eq_refl).
    reflexivity.
Defined.

(** X2: a backend call that returns [undefined] is handled as an empty
    answer: the diagnostic naming the model is emitted as a chunk, stored and
    resolved with, and the warning is logged. *)
Theorem undefined_response_is_replaced (backend : Generator) (sessionId : string)
    (model : Model.t) (history : list Msg.t) (w : World) :
  outcome (callOf backend model history) = Returns None ->
  let text :=
    "No response was generated from " +:+ Model.id model +:+
    ". This could be due to an issue with the model configuration or the input provided." in
  processModel backend sessionId model history w =
  (Normal text,
   {| sessions := alter (fun l => l ++ [assistantOf model text]) sessionId (sessions w);
      emitted :=
        emitted w
        ++ map (chunkOf sessionId model) (fragments (callOf backend model history))
        ++ [receive_message (Model.id model) text false sessionId (Model.order model);
            receive_message (Model.id model) "" true sessionId (Model.order model)];
      console :=
        console w
        ++ [console_warn_line ("Warning: Empty or error response from " +:+ Model.id model)];
      invocations := invocations w ++ [invocationOf model history];
      appended := appended w ++ [(sessionId, assistantOf model text)] |}).
Proof.
  intros Ho text.
  rewrite processModel_run.
  unfold stepWorld, stepEvents, stepLogs, stepSessions, stepAppends, stepText.
  rewrite Ho. reflexivity.
Qed.

Lemma undefined_response_is_replaced_witness :
  outcome (callOf Sample.mute Example.novaModel [userOf "hi"]) = Returns None /\
  (processModel Sample.mute "s1" Example.novaModel [userOf "hi"] Example.world).1 =
  Normal "No response was generated from nova. This could be due to an issue with the model configuration or the input provided.".
Proof.
  split; [reflexivity|].
  rewrite (undefined_response_is_replaced Sample.mute "s1" Example.novaModel
             [userOf "hi"] Example.world eq_refl).
  reflexivity.
Defined.

Lemma errorText_not_blank (err : Err.t) : whitespaceOnly (errorText err) = false.
Proof. reflexivity. Qed.

Lemma noResponseText_not_blank (id : string) : whitespaceOnly (noResponseText id) = false.
Proof. reflexivity. Qed.

Lemma blank_not_errorText (r : option string) :
  isBlank r = true -> isErrorText r = false.
Proof.
  destruct r as [s|]; [|done]. intros Hb. cbn [isErrorText].
  destruct (Js.startsWith s "Error:") eqn:Hp; [|done].
  rewrite (startsWith_Error_not_blank s Hp) in Hb. discriminate.
Qed.

(** X3: whatever the backend does, the text a step resolves with is not
    blank: it has a code unit that is not white space. *)
Theorem step_text_is_never_blank (backend : Generator) (sessionId : string)
    (model : Model.t) (history : list Msg.t) (w : World) :
  exists (text : string) (w' : World),
    processModel backend sessionId model history w = (Normal text, w') /\
    whitespaceOnly text = false.
Proof.
  rewrite processModel_run. eexists _, _. split; [reflexivity|].
  unfold stepText. destruct (outcome _) as [r|err].
  - destruct (isBlank r) eqn:Hb.
    + apply noResponseText_not_blank.
    + destruct r as [s|]; [|discriminate]. by rewrite <- isBlank_whitespaceOnly.
  - apply errorText_not_blank.
Qed.

(** X4: the text a step resolves with starts with [Error:] exactly when the
    backend call threw or itself returned a text with that prefix; the
    diagnostic for an empty answer never carries the prefix. *)
Theorem error_prefix_marks_failures (backend : Generator) (sessionId : string)
    (model : Model.t) (history : list Msg.t) (w : World) :
  exists (text : string) (w' : World),
    processModel backend sessionId model history w = (Normal text, w') /\
    Js.startsWith text "Error:" =
    match outcome (callOf backend model history) with
    | Fails _ => true
    | Returns None => false
    | Returns (Some s) => Js.startsWith s "Error:"
    end.
Proof.
  rewrite processModel_run. eexists _, _. split; [reflexivity|].
  unfold stepText. destruct (outcome _) as [r|err]; [|reflexivity].
  destruct (isBlank r) eqn:Hb.
  - pose proof (blank_not_errorText r Hb) as He.
    destruct r as [s|]; cbn in He; [rewrite He|]; reflexivity.
  - destruct r as [s|]; [reflexivity|discriminate].
Qed.

(** X5: a step forwards every fragment of the backend once, in arrival
    order, before anything it adds itself; it adds at most one chunk of its
    own, which carries the text it resolves with and is there exactly when
    the call threw or returned [undefined] or a text that is empty or white
    space only; the terminal chunk comes last. *)
Theorem fragments_are_forwarded_first (backend : Generator) (sessionId : string)
    (model : Model.t) (history : list Msg.t) (w : World) :
  exists (text : string) (w' : World),
    processModel backend sessionId model history w = (Normal text, w') /\
    emitted w' =
    emitted w
    ++ map (fun fragment =>
              receive_message (Model.id model) fragment false sessionId (Model.order model))
         (fragments (callOf backend model history))
    ++ match outcome (callOf backend model history) with
       | Returns (Some returned) =>
           if whitespaceOnly returned
           then [receive_message (Model.id model) text false sessionId (Model.order model)]
           else []
       | Returns None | Fails _ =>
           [receive_message (Model.id model) text false sessionId (Model.order model)]
       end
    ++ [receive_message (Model.id model) "" true sessionId (Model.order model)].
Proof.
  rewrite processModel_run. eexists _, _. split; [reflexivity|].
  cbn [emitted stepWorld]. unfold stepEvents, stepText, chunkOf, terminalOf.
  destruct (outcome _) as [[returned|]|err]; [|reflexivity..].
  rewrite <- isBlank_whitespaceOnly. destruct (isBlank (Some returned)); reflexivity.
Qed.

(** A reply of U+3000, U+2028, a space and U+FEFF is white space only and
    gets the diagnostic, with its chunk and the warning; a reply of U+200B
    is not and passes. *)
Lemma wide_white_space_is_blank :
  let run := processModel Sample.hushed "s1" Example.novaModel [userOf "hi"] Example.world in
  let text :=
    "No response was generated from nova. This could be due to an issue with the model configuration or the input provided." in
  forallb whitespaceOnly Js.whiteSpace = true /\
  List.map whitespaceOnly [Js.utf8 8203; Js.utf8 133; Js.utf8 6158; "a"] =
  [false; false; false; false] /\
  run.1 = Normal text /\
  emitted run.2 = [receive_message "nova" text false "s1" 2;
                   receive_message "nova" "" true "s1" 2] /\
  console run.2 = [console_warn_line "Warning: Empty or error response from nova"].
Proof. vm_compute. repeat split. Qed.

(** ** Further properties of a send *)

Section Sends.

Variable backend : Generator.
Variable cfg : Config.

(** An unknown session id: one [invalid_session] event and nothing else. *)
Lemma onSendMessage_unknown (data : Data.t) (w : World) :
  sessions w !! Data.sessionId data = None ->
  onSendMessage backend cfg data w =
  (Normal tt,
   {| sessions := sessions w;
      emitted := emitted w ++ [error "invalid_session" "Invalid session ID"];
      console := console w; invocations := invocations w;
      appended := appended w |}).
Proof.
  intros Hs.
  unfold onSendMessage. rewrite onSendMessageWith_object.
  unfold try_catch, bind, Session.getById.
  by rewrite Hs.
Qed.

Lemma stepSessions_lookup (sessionId : string) (model : Model.t) (s : Stream)
    (store : gmap string (list Msg.t)) :
  stepSessions sessionId model s store !! sessionId =
  (fun l => l ++ (if returned s then [assistantOf model (stepText model s)] else []))
    <$> store !! sessionId.
Proof.
  unfold stepSessions, returned. destruct (outcome s).
  - by rewrite lookup_alter_eq.
  - destruct (store !! sessionId); cbn; by rewrite ?app_nil_r.
Qed.

Lemma stepSessions_lookup_ne (sessionId other : string) (model : Model.t)
    (s : Stream) (store : gmap string (list Msg.t)) :
  other <> sessionId ->
  stepSessions sessionId model s store !! other = store !! other.
Proof.
  intros Hne. unfold stepSessions. destruct (outcome s); [|done].
  by rewrite lookup_alter_ne.
Qed.

Lemma stepSessions_dom (sessionId : string) (model : Model.t) (s : Stream)
    (store : gmap string (list Msg.t)) :
  dom (stepSessions sessionId model s store) = dom store.
Proof.
  unfold stepSessions. destruct (outcome s); [|done]. apply dom_alter_L.
Qed.

(** The transcript of the session after a run. *)
Lemma run_sessions (data : Data.t) (old : list Msg.t) (w : World) :
  let sessionId := Data.sessionId data in
  let h0 := old ++ [userOf (Data.message data)] in
  let d := {| Model.id := "deepseek"; Model.config := deepseek (models cfg);
              Model.order := 1 |} in
  let n := {| Model.id := "nova"; Model.config := nova (models cfg);
              Model.order := 2 |} in
  let s1 := callOf backend d h0 in
  let a1 := assistantOf d (stepText d s1) in
  let s2 := callOf backend n (h0 ++ [a1]) in
  let a2 := assistantOf n (stepText n s2) in
  sessions w !! sessionId = Some old ->
  sessions (runWorld backend cfg data old w) !! sessionId =
  Some (h0 ++ (if returned s1 then [a1] else []) ++ (if returned s2 then [a2] else [])).
Proof.
  intros sessionId h0 d n s1 a1 s2 a2 Hs.
  unfold runWorld. cbn [sequence loopWorld sessions stepWorld].
  rewrite !stepSessions_lookup. unfold withUser. cbn [sessions].
  rewrite lookup_alter_eq. fold sessionId. rewrite Hs. cbn [fmap option_fmap option_map].
  fold h0 d n. fold s1. fold a1. fold s2. fold a2.
  by rewrite <- app_assoc.
Qed.

Lemma run_sessions_ne (data : Data.t) (old : list Msg.t) (w : World) (other : string) :
  other <> Data.sessionId data ->
  sessions (runWorld backend cfg data old w) !! other = sessions w !! other.
Proof.
  intros Hne. unfold runWorld. cbn [sequence loopWorld sessions stepWorld].
  rewrite !stepSessions_lookup_ne by done.
  unfold withUser. cbn [sessions]. by rewrite lookup_alter_ne.
Qed.

Lemma run_sessions_dom (data : Data.t) (old : list Msg.t) (w : World) :
  dom (sessions (runWorld backend cfg data old w)) = dom (sessions w).
Proof.
  unfold runWorld. cbn [sequence loopWorld sessions stepWorld].
  rewrite !stepSessions_dom. unfold withUser. cbn [sessions]. apply dom_alter_L.
Qed.

(** X6: a send leaves the transcript of every other session as it was,
    whether its own session is known or not. *)
Theorem other_sessions_are_untouched (data : Data.t) (w : World) (other : string) :
  other <> Data.sessionId data ->
  sessions (onSendMessage backend cfg data w).2 !! other = sessions w !! other.
Proof.
  intros Hne. destruct (sessions w !! Data.sessionId data) as [old|] eqn:Hs.
  - rewrite (onSendMessage_valid backend cfg data old w Hs). cbn [snd].
    by apply run_sessions_ne.
  - by rewrite (onSendMessage_unknown data w Hs).
Qed.

(** X7: a send neither creates nor deletes a session, and what a session
    held before is a prefix of what it holds after: stored messages are
    never removed, reordered or rewritten. *)
Theorem sessions_only_grow (data : Data.t) (w : World) :
  dom (sessions (onSendMessage backend cfg data w).2) = dom (sessions w) /\
  forall (sessionId : string) (old : list Msg.t),
    sessions w !! sessionId = Some old ->
    exists added : list Msg.t,
      sessions (onSendMessage backend cfg data w).2 !! sessionId = Some (old ++ added).
Proof.
  destruct (sessions w !! Data.sessionId data) as [mine|] eqn:Hs.
  - rewrite (onSendMessage_valid backend cfg data mine w Hs). cbn [snd]. split.
    + apply run_sessions_dom.
    + intros sessionId old Hold.
      destruct (decide (sessionId = Data.sessionId data)) as [->|Hne].
      * rewrite Hs in Hold. injection Hold as ->.
        pose proof (run_sessions data old w Hs) as R. cbn zeta in R.
        rewrite R, <- app_assoc. eauto.
      * exists []. by rewrite app_nil_r, run_sessions_ne.
  - rewrite (onSendMessage_unknown data w Hs). cbn [snd sessions]. split; [done|].
    intros sessionId old Hold. exists []. by rewrite app_nil_r.
Qed.

End Sends.

Lemma other_sessions_are_untouched_witness :
  "s2" <> Data.sessionId Example.hi /\
  sessions (onSendMessage Example.greeter Example.cfg Example.hi Sample.twoSessions).2
    !! "s2" = Some [userOf "earlier"].
Proof.
  split; [discriminate|].
  rewrite (other_sessions_are_untouched Example.greeter Example.cfg Example.hi
             Sample.twoSessions "s2"); [reflexivity|discriminate].
Defined.

Lemma sessions_only_grow_witness :
  sessions Sample.twoSessions !! "s2" = Some [userOf "earlier"] /\
  exists added : list Msg.t,
    sessions (onSendMessage Example.faulty Example.cfg Example.hi Sample.twoSessions).2
      !! "s2" = Some ([userOf "earlier"] ++ added).
Proof.
  split; [reflexivity|].
  destruct (sessions_only_grow Example.faulty Example.cfg Example.hi Sample.twoSessions)
    as [_ H].
  apply (H "s2" [userOf "earlier"]). reflexivity.
Defined.

Lemma wellTagged_step (sessionId : string) (model : Model.t) (s : Stream) :
  wellTagged sessionId (terminalOf sessionId model) = true ->
  forallb (wellTagged sessionId) (stepEvents sessionId model s) = true.
Proof.
  intros Ht. destruct (stepEvents_shape sessionId model s) as [texts ->].
  rewrite forallb_app. cbn [forallb]. rewrite Ht, andb_true_r. cbn [andb].
  induction texts as [|t texts IH]; [done|].
  cbn [map forallb]. rewrite IH, andb_true_r. exact Ht.
Qed.

Section Runs.

Variable backend : Generator.
Variable cfg : Config.

(** The events of a run on a known session, as one list. *)
Lemma run_new_events (data : Data.t) (old : list Msg.t) (w : World) :
  exists new : list Event,
    emitted (runWorld backend cfg data old w) = emitted w ++ new /\
    forallb (wellTagged (Data.sessionId data)) new = true /\
    last new = Some (all_responses_complete (Data.sessionId data)).
Proof.
  pose proof (run_emitted backend cfg data old w) as R. cbn zeta in R.
  eexists. split; [exact R|]. split.
  - rewrite !forallb_app, !wellTagged_step;
      cbn; rewrite ?String.eqb_refl; reflexivity.
  - rewrite !app_assoc. apply last_snoc.
Qed.

(** X8: the handler never rejects.  On a payload that is no object the
    destructuring throws: the handler logs that error and emits one
    [model_error], and touches neither the store nor the generator.  On an
    object, with [processModel] as the step, the only [error] event it can
    add is [invalid_session], for a session the store does not know. *)
Theorem model_error_only_without_payload (payload : Payload) (w : World) :
  exists w' : World,
    handleSendMessage backend cfg payload w = (Normal tt, w') /\
    match payload with
    | Nullish raised =>
        w' =
        {| sessions := sessions w;
           emitted := emitted w ++ [error "model_error" "Error processing your message"];
           console := console w ++ [console_error_line "Error processing message:" raised];
           invocations := invocations w;
           appended := appended w |}
    | Object data =>
        exists new : list Event,
          emitted w' = emitted w ++ new /\
          forall code message : string,
            In (error code message) new ->
            code = "invalid_session" /\ sessions w !! Data.sessionId data = None
    end.
Proof.
  destruct payload as [data|raised]; [|eexists; split; reflexivity].
  change (handleSendMessage backend cfg (Object data)) with (onSendMessage backend cfg data).
  destruct (sessions w !! Data.sessionId data) as [old|] eqn:Hs.
  - rewrite (onSendMessage_valid backend cfg data old w Hs).
    destruct (run_new_events data old w) as (new & Hnew & Htag & _).
    exists (runWorld backend cfg data old w).
    split; [reflexivity|]. exists new. split; [exact Hnew|].
    intros code message Hin.
    rewrite forallb_forall in Htag. specialize (Htag _ Hin). discriminate.
  - rewrite (onSendMessage_unknown backend cfg data w Hs).
    eexists. split; [reflexivity|]. eexists. split; [reflexivity|].
    intros code message [Heq|[]]. by injection Heq as <- <-.
Qed.

(** X9: a send to a known session adds only events that carry its session
    id, with [deepseek] always at order 1 and [nova] at order 2, and the last
    of them is [all_responses_complete]. *)
Theorem events_carry_the_session (data : Data.t) (old : list Msg.t) (w : World) :
  sessions w !! Data.sessionId data = Some old ->
  exists new : list Event,
    emitted (onSendMessage backend cfg data w).2 = emitted w ++ new /\
    forallb (wellTagged (Data.sessionId data)) new = true /\
    last new = Some (all_responses_complete (Data.sessionId data)).
Proof.
  intros Hs. rewrite (onSendMessage_valid backend cfg data old w Hs). cbn [snd].
  apply run_new_events.
Qed.

(** X10: after a send to a known session the working transcript holds the
    user message and one assistant message per model, and the store holds
    of these assistant messages exactly the ones whose backend call
    returned; the two agree exactly when no call threw. *)
Theorem store_holds_the_returned_answers (data : Data.t) (old : list Msg.t)
    (w : World) :
  sessions w !! Data.sessionId data = Some old ->
  let sessionId := Data.sessionId data in
  let h0 := old ++ [userOf (Data.message data)] in
  let d := {| Model.id := "deepseek"; Model.config := deepseek (models cfg);
              Model.order := 1 |} in
  let n := {| Model.id := "nova"; Model.config := nova (models cfg);
              Model.order := 2 |} in
  let s1 := callOf backend d h0 in
  let a1 := assistantOf d (stepText d s1) in
  let s2 := callOf backend n (h0 ++ [a1]) in
  let a2 := assistantOf n (stepText n s2) in
  let stored := h0 ++ (if returned s1 then [a1] else []) ++ (if returned s2 then [a2] else []) in
  let working := h0 ++ [a1; a2] in
  sessions (onSendMessage backend cfg data w).2 !! sessionId = Some stored /\
  (processModelsInSequence backend cfg sessionId h0
     (withUser sessionId (Data.message data) w)).1 = Normal working /\
  (stored = working <-> returned s1 && returned s2 = true).
Proof.
  intros Hs sessionId h0 d n s1 a1 s2 a2 stored working.
  split; [|split].
  - rewrite (onSendMessage_valid backend cfg data old w Hs). cbn [snd].
    exact (run_sessions backend cfg data old w Hs).
  - rewrite processModelsInSequence_run. reflexivity.
  - subst stored working. split.
    + intros Heq. apply (f_equal length) in Heq. rewrite !length_app in Heq.
      destruct (returned s1), (returned s2); cbn in Heq; [done|lia..].
    + intros Hr. apply andb_true_iff in Hr as [-> ->]. reflexivity.
Qed.

(** X11: the next send on the same session is accepted, and its first
    generator call receives what the store holds after the first send,
    followed by the new user message.  So the error text of a model whose
    call threw, which the later model of the same run did see, is not part
    of what the models of the next run see. *)
Theorem next_send_sees_the_store (first second : Data.t) (old : list Msg.t)
    (w : World) :
  sessions w !! Data.sessionId first = Some old ->
  Data.sessionId second = Data.sessionId first ->
  let h0 := old ++ [userOf (Data.message first)] in
  let d := {| Model.id := "deepseek"; Model.config := deepseek (models cfg);
              Model.order := 1 |} in
  let n := {| Model.id := "nova"; Model.config := nova (models cfg);
              Model.order := 2 |} in
  let s1 := callOf backend d h0 in
  let a1 := assistantOf d (stepText d s1) in
  let s2 := callOf backend n (h0 ++ [a1]) in
  let a2 := assistantOf n (stepText n s2) in
  let stored := h0 ++ (if returned s1 then [a1] else []) ++ (if returned s2 then [a2] else []) in
  let w1 := (onSendMessage backend cfg first w).2 in
  invocations (onSendMessage backend cfg second w1).2 !! length (invocations w1) =
  Some {| inv_modelId := modelId (deepseek (models cfg));
          inv_history := stored ++ [userOf (Data.message second)];
          inv_parameters := parameters (deepseek (models cfg)) |}.
Proof.
  intros Hs Hsame h0 d n s1 a1 s2 a2 stored w1.
  assert (Hstored : sessions w1 !! Data.sessionId second = Some stored).
  { subst w1. rewrite Hsame, (onSendMessage_valid backend cfg first old w Hs).
    cbn [snd]. exact (run_sessions backend cfg first old w Hs). }
  rewrite (onSendMessage_valid backend cfg second stored w1 Hstored).
  cbn [snd]. unfold runWorld. cbn [invocations]. rewrite loop_invocations.
  change (invocations (withUser _ _ w1)) with (invocations w1).
  rewrite lookup_app_r by lia. rewrite Nat.sub_diag. cbn.
  by rewrite app_nil_r.
Qed.

End Runs.

Lemma model_error_only_without_payload_witness :
  emitted (handleSendMessage Example.greeter Example.cfg
             (Nullish {| Err.message := Some "no payload" |}) Example.world).2 =
  [error "model_error" "Error processing your message"] /\
  In (error "invalid_session" "Invalid session ID")
    (emitted (handleSendMessage Example.faulty Example.cfg (Object Example.stray)
                Example.world).2) /\
  sessions Example.world !! Data.sessionId Example.stray = None.
Proof.
  split.
  - destruct (model_error_only_without_payload Example.greeter Example.cfg
                (Nullish {| Err.message := Some "no payload" |}) Example.world)
      as (w' & Hrun & Hw).
    rewrite Hrun, Hw. reflexivity.
  - split; [left; reflexivity|].
    destruct (model_error_only_without_payload Example.faulty Example.cfg
                (Object Example.stray) Example.world)
      as (w' & Hrun & new & Hnew & Honly).
    apply (Honly "invalid_session" "Invalid session ID").
    assert (Hw : w' = (handleSendMessage Example.faulty Example.cfg
                         (Object Example.stray) Example.world).2) by (by rewrite Hrun).
    rewrite Hw in Hnew. cbn in Hnew. rewrite <- Hnew. left; reflexivity.
Defined.

Lemma events_carry_the_session_witness :
  sessions Example.world !! Data.sessionId Example.hi = Some [] /\
  forallb (wellTagged "s1")
    (emitted (onSendMessage Example.faulty Example.cfg Example.hi Example.world).2)
  = true.
Proof.
  split; [reflexivity|].
  destruct (events_carry_the_session Example.faulty Example.cfg Example.hi []
              Example.world eq_refl) as (new & Hnew & Htag & _).
  rewrite Hnew. exact Htag.
Defined.

Lemma store_holds_the_returned_answers_witness :
  sessions Example.world !! Data.sessionId Example.hi = Some [] /\
  sessions (onSendMessage Example.faulty Example.cfg Example.hi Example.world).2
    !! "s1" = Some [userOf "hi"; assistantOf Example.novaModel "ok"].
Proof.
  split; [reflexivity|].
  destruct (store_holds_the_returned_answers Example.faulty Example.cfg Example.hi
              [] Example.world eq_refl) as [H _].
  exact H.
Defined.

Lemma next_send_sees_the_store_witness :
  sessions Example.world !! Data.sessionId Example.hi = Some [] /\
  Data.sessionId Sample.more = Data.sessionId Example.hi /\
  invocations
    (onSendMessage Example.faulty Example.cfg Sample.more
       (onSendMessage Example.faulty Example.cfg Example.hi Example.world).2).2
    !! 2%nat =
  Some {| inv_modelId := "us.deepseek.r1-v1:0";
          inv_history :=
            [userOf "hi"; assistantOf Example.novaModel "ok"; userOf "more"];
          inv_parameters := Example.params |}.
Proof.
  split; [reflexivity|]. split; [reflexivity|].
  exact (next_send_sees_the_store Example.faulty Example.cfg Example.hi Sample.more
           [] Example.world eq_refl eq_refl).
Defined.

(** ** Properties of the configuration *)

Lemma env_or_delete_empty (env : gmap string string) (key name fallback : string) :
  env !! key = Some "" ->
  env_or (delete key env) name fallback = env_or env name fallback.
Proof.
  intros He. unfold env_or.
  destruct (decide (name = key)) as [->|Hne].
  - by rewrite lookup_delete_eq, He.
  - by rewrite lookup_delete_ne.
Qed.

Lemma exports_delete_empty (parseFloat parseInt : string -> Js.Number)
    (env : gmap string string) (key : string) :
  env !! key = Some "" ->
  exports parseFloat parseInt (delete key env) = exports parseFloat parseInt env.
Proof.
  intros He. unfold exports, config.
  rewrite !(env_or_delete_empty env key) by done.
  do 3 f_equal.
  destruct (decide ("PORT" = key)) as [<-|Hne].
  - by rewrite lookup_delete_eq, He.
  - by rewrite lookup_delete_ne.
Qed.

(** X12: a variable the environment sets to the empty string is not filled
    from [.env] and gets its default: the module exports what it would if
    neither the environment nor [.env] named the variable. *)
Theorem empty_variable_gets_the_default (parseFloat parseInt : string -> Js.Number)
    (file env : gmap string string) (key : string) :
  env !! key = Some "" ->
  moduleExports parseFloat parseInt file env =
  moduleExports parseFloat parseInt (delete key file) (delete key env).
Proof.
  intros He. unfold moduleExports, dotenv_config.
  rewrite <- delete_union. symmetry. apply exports_delete_empty.
  by apply lookup_union_Some_l.
Qed.

(** With [PORT=8080] in [.env]: the empty [PORT] of the environment gives
    the default 3001, and without it the value of [.env] is exported. *)
Lemma empty_variable_gets_the_default_witness :
  Sample.blanked !! "PORT" = Some "" /\
  port (server (moduleExports Sample.parseKnown Sample.parseKnown
                  Sample.dotenvFile Sample.blanked)) = PortNumber 3001 /\
  port (server (moduleExports Sample.parseKnown Sample.parseKnown
                  Sample.dotenvFile ∅)) = PortText "8080".
Proof.
  split; [reflexivity|]. split; [|reflexivity].
  rewrite (empty_variable_gets_the_default Sample.parseKnown Sample.parseKnown
             Sample.dotenvFile Sample.blanked "PORT" eq_refl).
  reflexivity.
Defined.

Lemma env_or_insert_ne (env : gmap string string) (key value name fallback : string) :
  name <> key ->
  env_or (<[key := value]> env) name fallback = env_or env name fallback.
Proof. intros Hne. unfold env_or. by rewrite lookup_insert_ne. Qed.

(** X13: the exported configuration depends on the ten variables it names
    and on nothing else of the environment: setting any other variable
    leaves it as it is. *)
Theorem other_variables_are_ignored (parseFloat parseInt : string -> Js.Number)
    (env : gmap string string) (key value : string) :
  ~ In key configVariables ->
  exports parseFloat parseInt (<[key := value]> env) = exports parseFloat parseInt env.
Proof.
  intros Hout. unfold exports, config.
  assert (Hne : forall name, In name configVariables -> name <> key)
    by (intros name Hin ->; contradiction).
  rewrite !(env_or_insert_ne env key value) by (apply Hne; cbn; tauto).
  rewrite lookup_insert_ne by (intros ->; apply Hout; cbn; tauto).
  reflexivity.
Qed.

Lemma other_variables_are_ignored_witness :
  ~ In "HOME" configVariables /\
  exports Sample.parseNothing Sample.parseNothing (<["HOME" := "/root"]> Sample.blankPort)
  = exports Sample.parseNothing Sample.parseNothing Sample.blankPort.
Proof.
  assert (Hout : ~ In "HOME" configVariables)
    by (cbn; intros H; repeat destruct H as [H|H]; try discriminate H; exact H).
  split; [exact Hout|].
  exact (other_variables_are_ignored Sample.parseNothing Sample.parseNothing
           Sample.blankPort "HOME" "/root" Hout).
Defined.

(** Lines 3 to 29 read the ten variables and nothing else. *)
Lemma exports_agree (parseFloat parseInt : string -> Js.Number)
    (env1 env2 : gmap string string) :
  (forall name, In name configVariables -> env1 !! name = env2 !! name) ->
  exports parseFloat parseInt env1 = exports parseFloat parseInt env2.
Proof.
  intros H. unfold exports, config, env_or.
  repeat match goal with
         | |- context [env1 !! ?name] => rewrite (H name) by (cbn; tauto)
         end.
  reflexivity.
Qed.

(** The same for the module as a whole: a variable outside the ten changes
    nothing, be it set in the environment or in [.env]. *)
Lemma moduleExports_other_variables (parseFloat parseInt : string -> Js.Number)
    (file env : gmap string string) (key value : string) :
  ~ In key configVariables ->
  moduleExports parseFloat parseInt file (<[key := value]> env) =
  moduleExports parseFloat parseInt file env /\
  moduleExports parseFloat parseInt (<[key := value]> file) env =
  moduleExports parseFloat parseInt file env.
Proof.
  intros Hout.
  assert (Hne : forall name, In name configVariables -> key <> name)
    by (intros name Hin ->; contradiction).
  split; apply exports_agree; intros name Hin; unfold dotenv_config;
    rewrite !lookup_union, lookup_insert_ne by (by apply Hne); reflexivity.
Qed.

Lemma or_else_nonempty (value fallback : string) :
  value <> "" -> Js.or_else (Some value) fallback = value.
Proof. intros Hv. destruct value; [done|reflexivity]. Qed.

(** X14: a non-empty [NOVA_MODEL_ID], read from the environment or, when
    the environment does not have it, from [.env], is the backend reference
    of the second generator call of a run; the call is made with the
    parameters parsed from the texts of [NOVA_TEMPERATURE] and
    [NOVA_MAX_TOKENS], read the same way, and from [0.7] and [1000] where
    the variable is missing or empty. *)
Theorem environment_reaches_the_generator (backend : Generator)
    (parseFloat parseInt : string -> Js.Number) (file env : gmap string string)
    (reference : string) (data : Data.t) (old : list Msg.t) (w : World) :
  let read name :=
    match env !! name with
    | Some value => Some value
    | None => file !! name
    end in
  read "NOVA_MODEL_ID" = Some reference ->
  reference <> "" ->
  sessions w !! Data.sessionId data = Some old ->
  exists history : list Msg.t,
    invocations
      (onSendMessage backend (pipeline (moduleExports parseFloat parseInt file env))
         data w).2
      !! (length (invocations w) + 1)%nat =
    Some {| inv_modelId := reference;
            inv_history := history;
            inv_parameters :=
              {| temperature :=
                   parseFloat
                     match read "NOVA_TEMPERATURE" with
                     | Some (String c text) => String c text
                     | Some EmptyString | None => "0.7"
                     end;
                 maxTokens :=
                   parseInt
                     match read "NOVA_MAX_TOKENS" with
                     | Some (String c text) => String c text
                     | Some EmptyString | None => "1000"
                     end |} |}.
Proof.
  intros read He Hv Hs.
  assert (Hread : forall name, dotenv_config file env !! name = read name).
  { intros name. unfold dotenv_config, read. rewrite lookup_union.
    destruct (env !! name), (file !! name); reflexivity. }
  rewrite (onSendMessage_valid backend _ data old w Hs). cbn [snd].
  unfold runWorld. cbn [invocations]. rewrite loop_invocations.
  change (invocations (withUser _ _ w)) with (invocations w).
  rewrite lookup_app_r by lia.
  replace (length (invocations w) + 1 - length (invocations w))%nat with 1%nat by lia.
  cbn. unfold invocationOf, env_or. cbn. rewrite !Hread, He.
  rewrite (or_else_nonempty _ _ Hv).
  destruct (read "NOVA_TEMPERATURE") as [[|c1 t1]|],
           (read "NOVA_MAX_TOKENS") as [[|c2 t2]|]; cbn; eauto.
Qed.

(** The reference comes from [.env]; [NOVA_MAX_TOKENS] is empty in the
    environment, which hides the 256 of [.env]; [NOVA_TEMPERATURE] is
    nowhere. *)
Lemma environment_reaches_the_generator_witness :
  match Sample.blanked !! "NOVA_MODEL_ID" with
  | Some value => Some value
  | None => Sample.dotenvFile !! "NOVA_MODEL_ID"
  end = Some "nova-pro" /\
  "nova-pro" <> "" /\
  sessions Example.world !! Data.sessionId Example.hi = Some [] /\
  (fun call => (inv_modelId call, inv_parameters call)) <$>
    (invocations
       (onSendMessage Sample.mute
          (pipeline (moduleExports Sample.parseKnown Sample.parseKnown
                       Sample.dotenvFile Sample.blanked))
          Example.hi Example.world).2 !! 1%nat) =
  Some ("nova-pro",
        {| temperature := Js.Num (7 # 10); maxTokens := Js.Num 1000 |}).
Proof.
  assert (Hv : "nova-pro" <> "") by discriminate.
  split; [reflexivity|]. split; [exact Hv|]. split; [reflexivity|].
  destruct (environment_reaches_the_generator Sample.mute Sample.parseKnown
              Sample.parseKnown Sample.dotenvFile Sample.blanked "nova-pro"
              Example.hi [] Example.world eq_refl Hv eq_refl) as [history H].
  cbn [length invocations Example.world Nat.add] in H. rewrite H. reflexivity.
Defined.

(** The console after a run on a known session. *)
Lemma run_console (backend : Generator) (cfg : Config) (data : Data.t)
    (old : list Msg.t) (w : World) :
  let h0 := old ++ [userOf (Data.message data)] in
  let d := {| Model.id := "deepseek"; Model.config := deepseek (models cfg);
              Model.order := 1 |} in
  let n := {| Model.id := "nova"; Model.config := nova (models cfg);
              Model.order := 2 |} in
  let s1 := callOf backend d h0 in
  let s2 := callOf backend n (h0 ++ [assistantOf d (stepText d s1)]) in
  console (runWorld backend cfg data old w) =
  console w ++ stepLogs d s1 ++ stepLogs n s2.
Proof. cbn. by rewrite <- app_assoc. Qed.

Lemma stepLogs_clean (model : Model.t) (s : Stream) :
  stepLogs model s = [] <-> clean s = true.
Proof.
  unfold stepLogs, clean. destruct (outcome s) as [[text|]|err]; [|done..].
  rewrite isBlank_whitespaceOnly. unfold isErrorText.
  destruct (whitespaceOnly text), (Js.startsWith text "Error:"); done.
Qed.

(** X15: a send to a known session writes on the console only on trouble:
    the console is left as it was exactly when both backend calls returned
    a text that is neither empty, nor white space only, nor starts with
    [Error:]. *)
Theorem console_is_silent_on_clean_runs (backend : Generator) (cfg : Config)
    (data : Data.t) (old : list Msg.t) (w : World) :
  sessions w !! Data.sessionId data = Some old ->
  let h0 := old ++ [userOf (Data.message data)] in
  let d := {| Model.id := "deepseek"; Model.config := deepseek (models cfg);
              Model.order := 1 |} in
  let n := {| Model.id := "nova"; Model.config := nova (models cfg);
              Model.order := 2 |} in
  let s1 := callOf backend d h0 in
  let s2 := callOf backend n (h0 ++ [assistantOf d (stepText d s1)]) in
  console (onSendMessage backend cfg data w).2 = console w <->
  clean s1 && clean s2 = true.
Proof.
  intros Hs h0 d n s1 s2.
  rewrite (onSendMessage_valid backend cfg data old w Hs). cbn [snd].
  pose proof (run_console backend cfg data old w) as R. cbn zeta in R. rewrite R.
  clear R. fold h0 d n. fold s1. fold s2.
  rewrite andb_true_iff, <- (stepLogs_clean d s1), <- (stepLogs_clean n s2). split.
  - intros Heq. apply (f_equal length) in Heq. rewrite !length_app in Heq.
    destruct (stepLogs d s1), (stepLogs n s2); cbn in Heq; try lia. done.
  - intros [-> ->]. by rewrite app_nil_r.
Qed.

Lemma console_is_silent_on_clean_runs_witness :
  sessions Example.world !! Data.sessionId Example.hi = Some [] /\
  console (onSendMessage Example.greeter Example.cfg Example.hi Example.world).2 = [] /\
  console (onSendMessage Sample.hushed Example.cfg Example.hi Example.world).2 <> [].
Proof.
  split; [reflexivity|]. split.
  - destruct (console_is_silent_on_clean_runs Example.greeter Example.cfg Example.hi
                [] Example.world eq_refl) as [_ H].
    exact (H eq_refl).
  - destruct (console_is_silent_on_clean_runs Sample.hushed Example.cfg Example.hi
                [] Example.world eq_refl) as [H _].
    intros Hsilent. specialize (H Hsilent). discriminate H.
Defined.
